(** * wormhole/_connect.py: the persistent-connection manager

    A shallow embedding of [src/wormhole/_connect.py]: the backoff retry
    policy, the disconnect-notifying protocol proxy and its factory, and the
    [_ClientMachine] automaton with its outputs and transition table.

    Python floats are modelled by exact rationals ([Q]): the policy is
    evaluated in exact arithmetic, without the rounding of the floats and
    without the [OverflowError] of [factor ** attempt], and is used at
    values that the floats represent exactly.  Python object identity
    (protocols, Deferreds, delayed calls, connection attempts) is modelled by
    natural-number identifiers.

    The collaborators the machine drives (the endpoint, the clock, the
    transport, Twisted's Deferreds) are not part of the module; the instance
    carries what the machine did to them.  This is taken from Twisted and
    Automat:
    - an input for which the state has no transition raises [NoTransition]
      and changes nothing;
    - an input moves the automaton to its new state before its outputs run,
      and the outputs run in order; when one raises, the input raises, the
      outputs after it do not run, and the instance stays as the outputs
      before it left it, in the new state;
    - an output is private: reading one off the instance, as in
      [self._wait()], raises [AttributeError];
    - cancelling the Deferred of a connect operation in flight fires its
      errback, [_connectionFailed], before [cancel] returns, and a Deferred
      keeps to itself what its callbacks raise;
    - the callbacks that consumers attach to the Deferreds they are handed do
      not call back into the machine, except where a property is about
      callbacks that do ([callback_registering], [callback_calling]).
    Any input may follow any other: [reachable] does not ask that the endpoint
    have a connect operation in flight when [_connectionFailed] arrives, and
    so covers every order of events the collaborators can produce.  The
    instance lives on when an input raises: the caller sees the exception,
    and the next input finds the instance as the failed one left it.

    The file ends with [ClientService], the service around the machine, and
    with the commands of [src/wormhole/server/cmd_server.py] that stop and
    restart the relay server. *)

From Stdlib Require Import List Arith Lia ZArith QArith Qminmax Bool.
From Stdlib Require Import Permutation.
From Stdlib Require String.
Import ListNotations.

Close Scope Q_scope.

(* ===================================================================== *)
(** * Retry policy: [backoffPolicy] *)
(* ===================================================================== *)

Module Backoff.

Local Open Scope Q_scope.

(** [backoffPolicy(initialDelay, maxDelay, factor, jitter)] returns the
    closure [policy]; [jitter] is a 0-argument callable, [attempt] the
    number of failed attempts in a row.

    {[
    def policy(attempt):
        return min(initialDelay * (factor ** attempt), maxDelay) + jitter()
    ]} *)
Definition backoffPolicy (initialDelay maxDelay factor : Q)
    (jitter : unit -> Q) : nat -> Q :=
  fun attempt =>
    Qmin (initialDelay * (factor ^ Z.of_nat attempt)) maxDelay + jitter tt.

(** The defaults of the signature: [initialDelay=1.0, maxDelay=60.0,
    factor=1.5]. *)
Definition default_initialDelay : Q := 1.
Definition default_maxDelay : Q := 60.
Definition default_factor : Q := 3 # 2.

(** [_defaultPolicy = backoffPolicy()], for a given source of jitter. *)
Definition _defaultPolicy (jitter : unit -> Q) : nat -> Q :=
  backoffPolicy default_initialDelay default_maxDelay default_factor jitter.

(** What the retry-policy section of the specification prescribes for the
    attempt [n]: the exponent is [n - 1]. *)
Definition spec_delay (initialDelay maxDelay factor j : Q) (n : nat) : Q :=
  Qmin (initialDelay * (factor ^ (Z.of_nat n - 1))) maxDelay + j.

End Backoff.

(* ===================================================================== *)
(** * The disconnect-notifying proxy and its factory *)
(* ===================================================================== *)

Module Proxy.

Set Implicit Arguments.

(** [_ReconnectingProtocolProxy.__init__(self, protocol, lostNotification)]
    stores its two arguments. *)
Record _ReconnectingProtocolProxy (P L : Type) : Type := Build_proxy
  { _protocol : P;
    _lostNotification : L }.

(** [_DisconnectFactory.__init__(self, protocolFactory,
    protocolDisconnected)]. *)
Record _DisconnectFactory (F L : Type) : Type := Build_factory
  { _protocolFactory : F;
    _protocolDisconnected : L }.

(** [_DisconnectFactory.buildProtocol(self, addr)]: a proxy around the protocol
    the wrapped factory builds, carrying the factory's callback. *)
Definition buildProtocol {Addr P L : Type}
    (self : _DisconnectFactory (Addr -> P) L) (addr : Addr)
    : _ReconnectingProtocolProxy P L :=
  Build_proxy (_protocolFactory self addr) (_protocolDisconnected self).

Section ConnectionLost.

(** Close reasons, results of the wrapped [connectionLost], exceptions, and
    whatever state the application code works on. *)
Variables Reason Value Exn World : Type.

(** How a Python call ends. *)
Inductive Outcome (A : Type) : Type :=
| Returned (a : A)
| Raised (e : Exn).

(** The calls the proxy makes, with the argument it passes. *)
Inductive Call : Type :=
| protocol_connectionLost (reason : Reason)
| lostNotification (reason : Reason).

(** The application-provided protocol, by its [connectionLost] method, and the
    1-argument disconnect callback: arbitrary code that changes the world and
    returns or raises. *)
Record IProtocol : Type :=
  { connectionLost_of : Reason -> World -> World * Outcome Value }.

Definition Notification : Type := Reason -> World -> World * Outcome unit.

(** [_ReconnectingProtocolProxy.connectionLost(self, reason)]:
    {[
    try:
        return self._protocol.connectionLost(reason)
    finally:
        self._lostNotification(reason)
    ]}
    The result is the final world, the calls made in order, and the outcome:
    the [finally] block runs whatever the body did; when it raises, its
    exception replaces the body's outcome, otherwise the body's outcome (a
    returned value or an exception) stands. *)
Definition connectionLost
    (self : _ReconnectingProtocolProxy IProtocol Notification)
    (reason : Reason) (w : World) : World * list Call * Outcome Value :=
  let (w1, body) := connectionLost_of (_protocol self) reason w in
  let (w2, final) := _lostNotification self reason w1 in
  let calls := [protocol_connectionLost reason; lostNotification reason] in
  match final with
  | Raised _ e => (w2, calls, Raised _ e)
  | Returned _ => (w2, calls, body)
  end.

(** The claimed order of the two calls: the callback first, the wrapped
    protocol's [connectionLost] afterwards. *)
Definition notifies_before_propagating (calls : list Call) : Prop :=
  exists r r' a b c,
    calls = a ++ lostNotification r :: b ++ protocol_connectionLost r' :: c.

(** The order of the code: the wrapped protocol first. *)
Definition propagates_before_notifying (calls : list Call) : Prop :=
  exists r r' a b c,
    calls = a ++ protocol_connectionLost r :: b ++ lostNotification r' :: c.

End ConnectionLost.

End Proxy.

Unset Implicit Arguments.

(* ===================================================================== *)
(** * The connection state machine: [_ClientMachine] *)
(* ===================================================================== *)

(** ** Values and collaborators *)

(** A [twisted.python.failure.Failure]: the one wrapping [CancelledError], or
    the failure of a connection attempt, by its reason. *)
Inductive Failure : Type :=
| CancelledError
| ConnectError (reason : nat).

(** An application protocol object, by identity. *)
Definition Protocol : Type := nat.

(** The callback [_connect] hands to [_DisconnectFactory]:
    [lambda _: self._clientDisconnected()]. *)
Inductive Notifier : Type := calls_clientDisconnected.

(** What [_connectionMade] receives: the proxy built by the factory proxy. *)
Definition ProtocolProxy : Type :=
  Proxy._ReconnectingProtocolProxy Protocol Notifier.

(** What a Deferred of the machine is fired with: [None], a protocol, or a
    [Failure]. *)
Inductive Result : Type :=
| RNone
| RProtocol (p : Protocol)
| RFailure (f : Failure).

(** The exceptions the code of the machine can raise:
    - [AttributeError]: an attribute that is not set ([_currentConnection]
      and [_retryCall] before their first assignment and after [del]), or an
      output read off the instance;
    - [AlreadyCalledError]: a Deferred fired a second time;
    - [AlreadyCalled], [AlreadyCancelled]: [cancel()] of a delayed call that
      has run, or was cancelled;
    - [IndexError]: [_firstResult] of no result. *)
Inductive Exception : Type :=
| AttributeError
| AlreadyCalledError
| AlreadyCalled
| AlreadyCancelled
| IndexError.

(** A connect operation of the endpoint: its Deferred has not fired yet, has
    fired, or was cancelled. *)
Inductive AttemptStatus : Type := InFlight | Finished | Cancelled.

(** A delayed call of the clock. *)
Inductive CallStatus : Type := Pending | Called | CallCancelled.

(** ** States and inputs, in the order the class declares them *)

Inductive State : Type :=
| _init
| _connecting_first_time
| _connecting
| _waiting
| _connected
| _disconnecting
| _restarting
| _stopped.

Inductive Input : Type :=
| start
| startAndFailTheFirstTime
| stop
| _connectionMade (protocol : ProtocolProxy)
| _connectionFailed (f : Failure)
| _reconnect
| _clientDisconnected
| whenConnected.

(** ** The instance

    The attributes [__init__] and the outputs assign ([_currentConnection] and
    [_retryCall] are absent until first assigned and after [del]), followed by
    the state of the collaborators the machine drives:
    - [endpoint_connects]: every [endpoint.connect] issued so far, in order;
      [_connectionInProgress] is [Some k] for the Deferred of the [k]-th, and
      [None] for the [succeed(None)] of [__init__];
    - [clock_calls]: every [clock.callLater] so far, with its delay;
      [_retryCall] is [Some k] for the [k]-th;
    - [transport_loseConnection]: the protocols whose transport was asked to
      close;
    - [deferreds]: how many Deferreds the machine has created (the next one
      gets this number);
    - [callbacks]: every firing of one of them, in order, with its result. *)
Record _ClientMachine : Type := Build_ClientMachine
  { state : State;
    _failedAttempts : nat;
    _timeoutForAttempt : nat -> Q;
    _connectionInProgress : option nat;
    _currentConnection : option Protocol;
    _retryCall : option nat;
    _awaitingConnected : list nat;
    _stopWaiters : list nat;
    endpoint_connects : list AttemptStatus;
    clock_calls : list (Q * CallStatus);
    transport_loseConnection : list Protocol;
    deferreds : nat;
    callbacks : list (nat * Result) }.

(** Assignment to one attribute, the others as they are. *)
Definition set_state x
    '(Build_ClientMachine _ a t c p r w s e k l d f) :=
  Build_ClientMachine x a t c p r w s e k l d f.
Definition set_failedAttempts x
    '(Build_ClientMachine q _ t c p r w s e k l d f) :=
  Build_ClientMachine q x t c p r w s e k l d f.
Definition set_connectionInProgress x
    '(Build_ClientMachine q a t _ p r w s e k l d f) :=
  Build_ClientMachine q a t x p r w s e k l d f.
Definition set_currentConnection x
    '(Build_ClientMachine q a t c _ r w s e k l d f) :=
  Build_ClientMachine q a t c x r w s e k l d f.
Definition set_retryCall x
    '(Build_ClientMachine q a t c p _ w s e k l d f) :=
  Build_ClientMachine q a t c p x w s e k l d f.
Definition set_awaitingConnected x
    '(Build_ClientMachine q a t c p r _ s e k l d f) :=
  Build_ClientMachine q a t c p r x s e k l d f.
Definition set_stopWaiters x
    '(Build_ClientMachine q a t c p r w _ e k l d f) :=
  Build_ClientMachine q a t c p r w x e k l d f.
Definition set_endpoint_connects x
    '(Build_ClientMachine q a t c p r w s _ k l d f) :=
  Build_ClientMachine q a t c p r w s x k l d f.
Definition set_clock_calls x
    '(Build_ClientMachine q a t c p r w s e _ l d f) :=
  Build_ClientMachine q a t c p r w s e x l d f.
Definition set_transport_loseConnection x
    '(Build_ClientMachine q a t c p r w s e k _ d f) :=
  Build_ClientMachine q a t c p r w s e k x d f.
Definition set_deferreds x
    '(Build_ClientMachine q a t c p r w s e k l _ f) :=
  Build_ClientMachine q a t c p r w s e k l x f.
Definition set_callbacks x
    '(Build_ClientMachine q a t c p r w s e k l d _) :=
  Build_ClientMachine q a t c p r w s e k l d x.

(** [_ClientMachine.__init__(endpoint, factory, retryPolicy, clock, log)]: no
    failed attempt, [_connectionInProgress = succeed(None)], no waiter; the
    automaton starts in [_init]. *)
Definition __init__ (retryPolicy : nat -> Q) : _ClientMachine :=
  {| state := _init;
     _failedAttempts := 0;
     _timeoutForAttempt := retryPolicy;
     _connectionInProgress := None;
     _currentConnection := None;
     _retryCall := None;
     _awaitingConnected := [];
     _stopWaiters := [];
     endpoint_connects := [];
     clock_calls := [];
     transport_loseConnection := [];
     deferreds := 0;
     callbacks := [] |}.

(** ** Twisted's primitives, as far as the machine uses them *)

Notation "x <- c ;; k" := (match c with Some x => k | None => None end)
  (at level 61, c at next level, right associativity).
Notation "' p <- c ;; k" := (match c with Some p => k | None => None end)
  (at level 61, p pattern, c at next level, right associativity).

(** [l[k] = x] where [k] is in range, no change otherwise. *)
Fixpoint update {A : Type} (k : nat) (x : A) (l : list A) : list A :=
  match l, k with
  | [], _ => []
  | _ :: rest, O => x :: rest
  | y :: rest, S k' => y :: update k' x rest
  end.

(** A Python [for] loop over a list whose body may raise. *)
Fixpoint for_each {A : Type}
    (body : A -> _ClientMachine -> option _ClientMachine) (l : list A)
    (self : _ClientMachine) : option _ClientMachine :=
  match l with
  | [] => Some self
  | x :: rest => self' <- body x self ;; for_each body rest self'
  end.

(** [Deferred()]: a new Deferred that has not fired. *)
Definition Deferred (self : _ClientMachine) : _ClientMachine * nat :=
  (set_deferreds (S (deferreds self)) self, deferreds self).

(** Whether the Deferred [d] has fired. *)
Definition called (d : nat) (self : _ClientMachine) : bool :=
  existsb (Nat.eqb d) (map fst (callbacks self)).

(** [d.callback(value)]: fires [d], or raises [AlreadyCalledError] when it has
    fired before.  The callbacks that application code attached to [d] run
    here; they are taken not to call back into the machine (transitions are
    processed one at a time). *)
Definition callback (d : nat) (value : Result) (self : _ClientMachine)
    : option _ClientMachine :=
  if called d self then None
  else Some (set_callbacks (callbacks self ++ [(d, value)]) self).

(** [succeed(value)] and [fail(failure)]: a new Deferred that has fired. *)
Definition succeed (value : Result) (self : _ClientMachine)
    : _ClientMachine * nat :=
  let (self', d) := Deferred self in
  (set_callbacks (callbacks self' ++ [(d, value)]) self', d).

Definition fail (f : Failure) (self : _ClientMachine) : _ClientMachine * nat :=
  succeed (RFailure f) self.

(** [clock.callLater(delay, self._reconnect)]: a new pending delayed call. *)
Definition callLater (delay : Q) (self : _ClientMachine)
    : _ClientMachine * nat :=
  (set_clock_calls (clock_calls self ++ [(delay, Pending)]) self,
   length (clock_calls self)).

(** [endpoint.connect(factoryProxy)]: a new connect operation, in flight. *)
Definition endpoint_connect (self : _ClientMachine) : _ClientMachine * nat :=
  (set_endpoint_connects (endpoint_connects self ++ [InFlight]) self,
   length (endpoint_connects self)).

(** ** Outputs *)

(** What an output returns to the collector: [None] or a Deferred. *)
Inductive Value : Type :=
| PyNone
| ADeferred (d : nat).

(** An output, called on the instance: [inr (self', v)] when it returns [v]
    and leaves the instance [self']; [inl e] when it raises [e].  The
    outputs that raise do so before they change anything (a Deferred fired
    twice apart, which no reachable instance comes to: see
    [raises_by_state]). *)
Definition Output : Type :=
  _ClientMachine -> Exception + _ClientMachine * Value.

(** [_connect]: the factory is wrapped in a [_DisconnectFactory] whose callback
    is the [_clientDisconnected] input, and the Deferred of the new connect
    operation, with [_connectionMade] and [_connectionFailed] chained, becomes
    [_connectionInProgress].  ([_connectionFailed] is chained after
    [_connectionMade], and would also run if that input raised: where it has
    a transition it does not, by [raises_by_state].) *)
Definition _connect : Output := fun self =>
  let (self, k) := endpoint_connect self in
  inr (set_connectionInProgress (Some k) self, PyNone).

(** [_resetFailedAttempts]: [self._failedAttempts = 0]. *)
Definition _resetFailedAttempts : Output := fun self =>
  inr (set_failedAttempts 0 self, PyNone).

(** [_waitForStop]:
    [self._stopWaiters.append(Deferred()); return self._stopWaiters[-1]]. *)
Definition _waitForStop : Output := fun self =>
  let (self, d) := Deferred self in
  inr (set_stopWaiters (_stopWaiters self ++ [d]) self, ADeferred d).

(** [_stopRetrying]: [self._retryCall.cancel(); del self._retryCall].
    [AttributeError] without the attribute [_retryCall], which [__init__]
    does not set; cancelling a delayed call that has run or was cancelled
    raises too. *)
Definition _stopRetrying : Output := fun self =>
  match _retryCall self with
  | None => inl AttributeError
  | Some k =>
      match nth_error (clock_calls self) k with
      | Some (delay, Pending) =>
          inr (set_retryCall None
                 (set_clock_calls (update k (delay, CallCancelled)
                                     (clock_calls self)) self),
               PyNone)
      | Some (_, Called) => inl AlreadyCalled
      | Some (_, CallCancelled) => inl AlreadyCancelled
      | None => inl AttributeError
      end
  end.

(** [_disconnect]: [self._currentConnection.transport.loseConnection()]. *)
Definition _disconnect : Output := fun self =>
  match _currentConnection self with
  | None => inl AttributeError
  | Some p =>
      inr (set_transport_loseConnection (transport_loseConnection self ++ [p])
             self, PyNone)
  end.

(** [_unawait(value)]:
    {[
    self._awaitingConnected, waiting = [], self._awaitingConnected
    for w in waiting:
        w.callback(value)
    ]}
    [fire] is the meaning of [w.callback(value)]. *)
Definition _unawait
    (fire : nat -> Result -> _ClientMachine -> option _ClientMachine)
    (value : Result) (self : _ClientMachine) : option _ClientMachine :=
  let waiting := _awaitingConnected self in
  let self := set_awaitingConnected [] self in
  for_each (fun w => fire w value) waiting self.

(** An output that ends with a loop of [callback]s returns [None] when the
    loop does, and raises what the loop raises. *)
Definition fired_all (loop : option _ClientMachine)
    : Exception + _ClientMachine * Value :=
  match loop with
  | Some self => inr (self, PyNone)
  | None => inl AlreadyCalledError
  end.

(** [_notifyWaiters(protocol)]: resets the failed attempts, remembers
    [protocol._protocol] and fires the waiters with it:
    {[
    self._failedAttempts = 0
    self._currentConnection = protocol._protocol
    self._unawait(self._currentConnection)
    ]} *)
Definition _notifyWaiters (protocol : ProtocolProxy) : Output := fun self =>
  let self := set_failedAttempts 0 self in
  let self := set_currentConnection (Some (Proxy._protocol protocol)) self in
  fired_all (_unawait callback (RProtocol (Proxy._protocol protocol)) self).

(** [_notifyInitialConnectionFailed(f)]: [self._unawait(f)]. *)
Definition _notifyInitialConnectionFailed (f : Failure) : Output := fun self =>
  fired_all (_unawait callback (RFailure f) self).

(** [_wait]: one more failed attempt; the policy gives the delay of the retry
    call for the new count (the log line is left out):
    {[
    self._failedAttempts += 1
    delay = self._timeoutForAttempt(self._failedAttempts)
    self._retryCall = self._clock.callLater(delay, self._reconnect)
    ]} *)
Definition _wait : Output := fun self =>
  let self := set_failedAttempts (_failedAttempts self + 1) self in
  let delay := _timeoutForAttempt self (_failedAttempts self) in
  let (self, k) := callLater delay self in
  inr (set_retryCall (Some k) self, PyNone).

(** [_wait1(f)]: [return self._wait()].  [_wait] is an output, and Automat
    does not let an output be read off the instance: the attribute lookup
    [self._wait] raises [AttributeError], and [_wait] does not run. *)
Definition _wait1 (f : Failure) : Output := fun self => inl AttributeError.

(** [_forgetConnection]: [del self._currentConnection]; [AttributeError] when
    the attribute is not set. *)
Definition _forgetConnection : Output := fun self =>
  match _currentConnection self with
  | None => inl AttributeError
  | Some _ => inr (set_currentConnection None self, PyNone)
  end.

(** [_cancelConnectWaiters]: [self._unawait(Failure(CancelledError()))]. *)
Definition _cancelConnectWaiters : Output := fun self =>
  fired_all (_unawait callback (RFailure CancelledError) self).

(** [_cancelConnectWaiters1(f)]: [return self._cancelConnectWaiters()]; the
    lookup of the output [_cancelConnectWaiters] raises [AttributeError], as
    in [_wait1]. *)
Definition _cancelConnectWaiters1 (f : Failure) : Output :=
  fun self => inl AttributeError.

(** [_finishStopping]:
    {[
    self._stopWaiters, waiting = [], self._stopWaiters
    for w in waiting:
        w.callback(None)
    ]} *)
Definition _finishStopping : Output := fun self =>
  let waiting := _stopWaiters self in
  let self := set_stopWaiters [] self in
  fired_all (for_each (fun w => callback w RNone) waiting self).

(** [_finishStopping1(f)]: [return self._finishStopping()]; the lookup of the
    output [_finishStopping] raises [AttributeError], as in [_wait1]. *)
Definition _finishStopping1 (f : Failure) : Output :=
  fun self => inl AttributeError.

(** The output [_currentConnection]: [succeed(self._currentConnection)].  The
    instance attribute of that name hides the output while it is set; while
    it is not, the lookup finds the output and raises [AttributeError]. *)
Definition _currentConnection_output : Output := fun self =>
  match _currentConnection self with
  | None => inl AttributeError
  | Some p =>
      let (self, d) := succeed (RProtocol p) self in
      inr (self, ADeferred d)
  end.

(** [_noConnection]: [fail(CancelledError())]. *)
Definition _noConnection : Output := fun self =>
  let (self, d) := fail CancelledError self in
  inr (self, ADeferred d).

(** [_awaitingConnection]:
    [result = Deferred(); self._awaitingConnected.append(result)]. *)
Definition _awaitingConnection : Output := fun self =>
  let (self, d) := Deferred self in
  inr (set_awaitingConnected (_awaitingConnected self ++ [d]) self,
       ADeferred d).

(** [_deferredSucceededWithNone]: [succeed(None)]. *)
Definition _deferredSucceededWithNone : Output := fun self =>
  let (self, d) := succeed RNone self in
  inr (self, ADeferred d).

(** ** Collectors *)

(** How the call of an input ends: it returns the list of its outputs'
    results (the default collector, [list]) or the first of them
    ([_firstResult]), or it raises what an output or the collector raised. *)
Inductive Returned : Type :=
| results (values : list Value)
| result (value : Value)
| raised (e : Exception).

Definition Collector : Type := list Value -> Returned.

Definition list_collector : Collector := fun values => results values.

(** [_firstResult(gen)]: [list(gen)[0]]; every output runs, [IndexError] when
    there is none. *)
Definition _firstResult : Collector := fun values =>
  match values with
  | v :: _ => result v
  | [] => raised IndexError
  end.

(** ** The transition table *)

Section Transitions.

(** How an input called from within an output is processed: the instance it
    leaves. *)
Variable reenter : Input -> _ClientMachine -> _ClientMachine.

(** [_stopConnecting]: [self._connectionInProgress.cancel()].  Cancelling a
    Deferred that has fired does nothing.  Cancelling the Deferred of a connect
    operation in flight stops the operation and fires the Deferred with
    [Failure(CancelledError())] at once: its errback, the [_connectionFailed]
    input, runs before [cancel] returns, as the notes at the two transitions
    with this output say ("this synchonously triggers _connectionFailed in the
    _disconnecting state").  What the errback raises stays in the Deferred:
    [cancel] returns. *)
Definition _stopConnecting : Output := fun self =>
  match _connectionInProgress self with
  | None => inr (self, PyNone)
  | Some k =>
      match nth_error (endpoint_connects self) k with
      | Some InFlight =>
          let self :=
            set_endpoint_connects
              (update k Cancelled (endpoint_connects self)) self in
          inr (reenter (_connectionFailed CancelledError) self, PyNone)
      | _ => inr (self, PyNone)
      end
  end.

(** [state.upon(input, enter=..., outputs=[...], collector=...)], line by line;
    [None] where the class declares no transition ([NoTransition]).  An output
    receives the arguments of the input it declares. *)
Definition upon (s : State) (i : Input)
    : option (State * list Output * Collector) :=
  match s, i with
  | _init, start => Some (_connecting, [_connect], list_collector)
  | _init, startAndFailTheFirstTime =>
      Some (_connecting_first_time, [_connect], list_collector)
  | _init, stop => Some (_stopped, [_deferredSucceededWithNone], _firstResult)

  | _connecting_first_time, start =>
      Some (_connecting_first_time, [], list_collector)
  | _connecting_first_time, stop =>
      Some (_disconnecting, [_waitForStop; _stopConnecting], _firstResult)
  | _connecting_first_time, _connectionMade protocol =>
      Some (_connected, [_notifyWaiters protocol], list_collector)
  | _connecting_first_time, _connectionFailed f =>
      Some (_stopped, [_notifyInitialConnectionFailed f], list_collector)

  | _connecting, start => Some (_connecting, [], list_collector)
  | _connecting, stop =>
      Some (_disconnecting, [_waitForStop; _stopConnecting], _firstResult)
  | _connecting, _connectionMade protocol =>
      Some (_connected, [_notifyWaiters protocol], list_collector)
  | _connecting, _connectionFailed f =>
      Some (_waiting, [_wait1 f], list_collector)

  | _waiting, start => Some (_waiting, [], list_collector)
  | _waiting, stop =>
      Some (_stopped,
            [_waitForStop; _cancelConnectWaiters; _stopRetrying;
             _finishStopping],
            _firstResult)
  | _waiting, _reconnect => Some (_connecting, [_connect], list_collector)

  | _connected, start => Some (_connected, [], list_collector)
  | _connected, stop =>
      Some (_disconnecting, [_waitForStop; _disconnect], _firstResult)
  | _connected, _clientDisconnected =>
      Some (_waiting, [_forgetConnection; _wait], list_collector)

  | _disconnecting, start =>
      Some (_restarting, [_resetFailedAttempts], list_collector)
  | _disconnecting, stop =>
      Some (_disconnecting, [_waitForStop], _firstResult)
  | _disconnecting, _clientDisconnected =>
      Some (_stopped,
            [_cancelConnectWaiters; _finishStopping; _forgetConnection],
            list_collector)
  | _disconnecting, _connectionFailed f =>
      Some (_stopped, [_cancelConnectWaiters1 f; _finishStopping1 f],
            list_collector)

  | _restarting, start => Some (_restarting, [], list_collector)
  | _restarting, stop => Some (_disconnecting, [_waitForStop], _firstResult)
  | _restarting, _clientDisconnected =>
      Some (_connecting, [_finishStopping; _connect], list_collector)

  | _stopped, start => Some (_connecting, [_connect], list_collector)
  | _stopped, stop =>
      Some (_stopped, [_deferredSucceededWithNone], _firstResult)

  | _init, whenConnected => Some (_init, [_awaitingConnection], _firstResult)
  | _connecting_first_time, whenConnected =>
      Some (_connecting_first_time, [_awaitingConnection], _firstResult)
  | _connecting, whenConnected =>
      Some (_connecting, [_awaitingConnection], _firstResult)
  | _waiting, whenConnected =>
      Some (_waiting, [_awaitingConnection], _firstResult)
  | _connected, whenConnected =>
      Some (_connected, [_currentConnection_output], _firstResult)
  | _disconnecting, whenConnected =>
      Some (_disconnecting, [_awaitingConnection], _firstResult)
  | _restarting, whenConnected =>
      Some (_restarting, [_awaitingConnection], _firstResult)
  | _stopped, whenConnected => Some (_stopped, [_noConnection], _firstResult)

  | _, _ => None
  end.

(** The outputs of a transition run in order, each on the instance the
    previous one left, and their results are gathered; when one raises, those
    after it do not run, and the instance is as those before it left it. *)
Fixpoint run_outputs (outputs : list Output) (self : _ClientMachine)
    : _ClientMachine * (Exception + list Value) :=
  match outputs with
  | [] => (self, inr [])
  | output :: rest =>
      match output self with
      | inl e => (self, inl e)
      | inr (self, v) =>
          let (self, vs) := run_outputs rest self in
          (self, match vs with
                 | inl e => inl e
                 | inr vs => inr (v :: vs)
                 end)
      end
  end.

(** An input is called by a collaborator, which has changed by then:
    [_connectionMade] and [_connectionFailed] are the callbacks of the connect
    Deferred in progress, which has fired; [_reconnect] is the delayed call,
    which the clock has run. *)
Definition delivered (i : Input) (self : _ClientMachine) : _ClientMachine :=
  match i with
  | _connectionMade _ | _connectionFailed _ =>
      match _connectionInProgress self with
      | Some k =>
          match nth_error (endpoint_connects self) k with
          | Some InFlight =>
              set_endpoint_connects
                (update k Finished (endpoint_connects self)) self
          | _ => self
          end
      | None => self
      end
  | _reconnect =>
      match _retryCall self with
      | Some k =>
          match nth_error (clock_calls self) k with
          | Some (delay, Pending) =>
              set_clock_calls (update k (delay, Called) (clock_calls self))
                self
          | _ => self
          end
      | None => self
      end
  | _ => self
  end.

(** Calling an input: [None] when the state has no transition for it
    ([NoTransition]: nothing has changed); otherwise the automaton moves to
    the new state, then the outputs run, then the collector gives the result.
    The instance the call leaves comes with how the call ended, [raised e]
    when an output raised [e]. *)
Definition doInput_with (i : Input) (self : _ClientMachine)
    : option (_ClientMachine * Returned) :=
  '(outState, outputs, collector) <- upon (state self) i ;;
  let self := set_state outState (delivered i self) in
  match run_outputs outputs self with
  | (self, inl e) => Some (self, raised e)
  | (self, inr values) => Some (self, collector values)
  end.

End Transitions.

(** The instance an input leaves when what it raises is not looked at, as
    for the callbacks of a Deferred. *)
Definition left_by (ended : option (_ClientMachine * Returned))
    (self : _ClientMachine) : _ClientMachine :=
  match ended with
  | Some (self', _) => self'
  | None => self
  end.

(** An input called from within an output of another input: the only one is
    the [_connectionFailed] of [_stopConnecting], and none of its outputs
    calls an input in turn. *)
Definition doInput_nested (i : Input) (self : _ClientMachine)
    : option (_ClientMachine * Returned) :=
  doInput_with (fun _ self => self) i self.

(** An input called by a collaborator or by the owner of the service. *)
Definition doInput (i : Input) (self : _ClientMachine)
    : option (_ClientMachine * Returned) :=
  doInput_with (fun i self => left_by (doInput_nested i self) self) i self.

(** A sequence of inputs, one at a time; the inputs after one that raised in
    an output find the instance as it left it. *)
Fixpoint run (inputs : list Input) (self : _ClientMachine)
    : option _ClientMachine :=
  match inputs with
  | [] => Some self
  | i :: rest => '(self, _) <- doInput i self ;; run rest self
  end.

(** The instances a newly created machine reaches by inputs that have a
    transition, whether their outputs raise or not. *)
Inductive reachable : _ClientMachine -> Prop :=
| reachable_init (retryPolicy : nat -> Q) : reachable (__init__ retryPolicy)
| reachable_input (self self' : _ClientMachine) (i : Input) (r : Returned) :
    reachable self -> doInput i self = Some (self', r) -> reachable self'.

(** ** What the claims speak of *)

Definition is_InFlight (a : AttemptStatus) : bool :=
  match a with InFlight => true | _ => false end.

Definition is_Pending (c : Q * CallStatus) : bool :=
  match snd c with Pending => true | _ => false end.

(** The connect operations in flight and the retry calls pending. *)
Definition in_flight (self : _ClientMachine) : nat :=
  length (filter is_InFlight (endpoint_connects self)).

Definition pending_calls (self : _ClientMachine) : nat :=
  length (filter is_Pending (clock_calls self)).

(** The two states with a connection attempt under way. *)
Definition attempting (s : State) : bool :=
  match s with
  | _connecting_first_time | _connecting => true
  | _ => false
  end.

(** The Deferred [d] has fired exactly once, with [value]. *)
Definition fired_once (d : nat) (value : Result) (self : _ClientMachine)
    : Prop :=
  In (d, value) (callbacks self)
  /\ count_occ Nat.eq_dec (map fst (callbacks self)) d = 1.

(** [remains s self self']: inputs lead from [self] to [self'], and the machine
    is in state [s] after each of them. *)
Inductive remains (s : State) : _ClientMachine -> _ClientMachine -> Prop :=
| remains_here (self : _ClientMachine) : remains s self self
| remains_input (self self' self'' : _ClientMachine) (i : Input)
    (r : Returned) :
    doInput i self = Some (self', r) -> state self' = s ->
    remains s self' self'' -> remains s self self''.

(** A waiter's callback that, once the Deferred has fired, registers [n] new
    waiters through [_awaitingConnection], the output [whenConnected] runs in
    the six states that register. *)
Fixpoint register (n : nat) (self : _ClientMachine) : option _ClientMachine :=
  match n with
  | O => Some self
  | S n' =>
      match _awaitingConnection self with
      | inr (self, _) => register n' self
      | inl _ => None
      end
  end.

Definition callback_registering (n : nat -> nat) (w : nat) (value : Result)
    (self : _ClientMachine) : option _ClientMachine :=
  self <- callback w value self ;; register (n w) self.

(** A waiter's callback that, once the Deferred has fired, calls inputs of
    the machine, each of which has a transition. *)
Definition callback_calling (inputs : nat -> list Input) (w : nat)
    (value : Result) (self : _ClientMachine) : option _ClientMachine :=
  self <- callback w value self ;; run (inputs w) self.

(** The Deferreds of [waiting] fired with [value], in order. *)
Definition firings (value : Result) (waiting : list nat)
    : list (nat * Result) :=
  map (fun w => (w, value)) waiting.

(** Every Deferred waiting or fired is one the machine created, and occurs
    once among the waiters and the firings: no Deferred waits twice, none
    fires twice, none that has fired still waits. *)
Definition distinct_deferreds (self : _ClientMachine) : Prop :=
  forall d : nat,
    count_occ Nat.eq_dec
      (_awaitingConnected self ++ _stopWaiters self
       ++ map fst (callbacks self)) d <= 1
    /\ (deferreds self <= d ->
        count_occ Nat.eq_dec
          (_awaitingConnected self ++ _stopWaiters self
           ++ map fst (callbacks self)) d = 0).

(** The retry call of the instance, if it is pending: the last call
    scheduled, and the only one pending. *)
Definition retry_pending (self : _ClientMachine) : Prop :=
  exists a delay, clock_calls self = a ++ [(delay, Pending)]
                  /\ _retryCall self = Some (length a)
                  /\ filter is_Pending a = [].

(** ** Consistency of an instance

    What holds of every instance between two inputs (see
    [reachable_consistent]):
    one connect operation is in flight, the last issued, in the two
    connecting states and none elsewhere; a retry call is pending in
    [_waiting] only, and then it is the last scheduled and the only one;
    which states have a current connection and which have none; which states
    have no failed attempt, and that one is the most there ever is; which
    states have no completion signal waiting; the Deferreds are distinct. *)
Record consistent (self : _ClientMachine) : Prop := Build_consistent
  { consistent_connects :
      if attempting (state self)
      then exists a, endpoint_connects self = a ++ [InFlight]
                     /\ _connectionInProgress self = Some (length a)
                     /\ filter is_InFlight a = []
      else filter is_InFlight (endpoint_connects self) = [];
    consistent_calls :
      match state self with
      | _waiting =>
          retry_pending self \/ filter is_Pending (clock_calls self) = []
      | _init | _connecting_first_time =>
          clock_calls self = [] /\ _retryCall self = None
      | _ => filter is_Pending (clock_calls self) = []
      end;
    consistent_connection :
      match state self with
      | _connected | _disconnecting | _restarting =>
          exists p, _currentConnection self = Some p
      | _init | _connecting_first_time => _currentConnection self = None
      | _ => True
      end;
    consistent_failedAttempts :
      match state self with
      | _waiting | _connecting | _stopped => _failedAttempts self <= 1
      | _ => _failedAttempts self = 0
      end;
    consistent_stopWaiters :
      match state self with
      | _init | _connecting_first_time => _stopWaiters self = []
      | _ => True
      end;
    consistent_deferreds : distinct_deferreds self }.

(** ** Instances used as examples *)

(** The default policy with a jitter of zero. *)
Definition steady_policy : nat -> Q := Backoff._defaultPolicy (fun _ => 0%Q).

(** The proxy the factory proxy builds when the caller's factory builds the
    protocol [p]. *)
Definition proxy_of (p : Protocol) : ProtocolProxy :=
  Proxy.buildProtocol
    (Proxy.Build_factory (fun _ : nat => p) calls_clientDisconnected) 0.

(** The instance a new machine reaches by [inputs]. *)
Definition after (inputs : list Input) : _ClientMachine :=
  match run inputs (__init__ steady_policy) with
  | Some self => self
  | None => __init__ steady_policy
  end.

(** The first attempt has failed: the machine waits, with no retry call. *)
Definition waiting_without_retry : _ClientMachine :=
  after [start; _connectionFailed (ConnectError 1)].

(** The connection to protocol 7 is lost: the machine waits for the retry
    call. *)
Definition waiting_to_retry : _ClientMachine :=
  after [start; _connectionMade (proxy_of 7); _clientDisconnected].

(** Connecting again after the loss of the connection to protocol 7. *)
Definition retrying : _ClientMachine :=
  after [start; _connectionMade (proxy_of 7); _clientDisconnected;
         _reconnect].

(** Connected to protocol 7, with one waiter served. *)
Definition connected_to_7 : _ClientMachine :=
  after [whenConnected; start; _connectionMade (proxy_of 7)].

(** Asked to stop while connected to protocol 7. *)
Definition closing_7 : _ClientMachine :=
  after [start; _connectionMade (proxy_of 7); stop].

(** Started in fail-first mode, with a waiter from before and one from
    after. *)
Definition first_attempt : _ClientMachine :=
  after [whenConnected; startAndFailTheFirstTime; whenConnected].

(** Connecting, with two waiters. *)
Definition two_waiters : _ClientMachine :=
  after [whenConnected; whenConnected; start].

(** The instance on which [_notifyWaiters] calls [_unawait] when the attempt
    of [two_waiters] succeeds with protocol 7: the automaton has moved to
    [_connected], the counter is reset and the connection stored. *)
Definition notifying_7 : _ClientMachine :=
  set_currentConnection (Some 7)
    (set_failedAttempts 0
       (set_state _connected
          (delivered (_connectionMade (proxy_of 7)) two_waiters))).

(** A protocol that notes its call in the world, a list of marks, and returns
    0; a callback that notes its own. *)
Definition noting_protocol : Proxy.IProtocol nat nat unit (list nat) :=
  {| Proxy.connectionLost_of :=
       fun reason w => (w ++ [1], Proxy.Returned unit 0) |}.

Definition noting_callback : Proxy.Notification nat unit (list nat) :=
  fun reason w => (w ++ [2], Proxy.Returned unit tt).

Definition noting_proxy
    : Proxy._ReconnectingProtocolProxy
        (Proxy.IProtocol nat nat unit (list nat))
        (Proxy.Notification nat unit (list nat)) :=
  Proxy.Build_proxy noting_protocol noting_callback.

(* ===================================================================== *)
(** * The service: [ClientService] *)
(* ===================================================================== *)

(** [_maybeGlobalReactor(maybeReactor)]: the argument, or the global reactor
    if the argument is [None]. *)
Definition _maybeGlobalReactor {Reactor : Type} (reactor : Reactor)
    (maybeReactor : option Reactor) : Reactor :=
  match maybeReactor with
  | None => reactor
  | Some given => given
  end.

(** A [ClientService]: the flag [running] of Twisted's [service.Service]
    (0 in a new service, set by its [startService], cleared by its
    [stopService]), the machine, and the warnings logged.  A method returns
    the service it leaves with how the call ended, as an input does; [None]
    is the [NoTransition] of the machine. *)
Record ClientService : Type := Build_ClientService
  { running : bool;
    _machine : _ClientMachine;
    warnings : nat }.

(** [ClientService.__init__(endpoint, factory, retryPolicy=None, clock=None)]:
    [retryPolicy = _defaultPolicy if retryPolicy is None else retryPolicy];
    [jitter] is the source of jitter of the default policy. *)
Definition ClientService_init (jitter : unit -> Q)
    (retryPolicy : option (nat -> Q)) : ClientService :=
  {| running := false;
     _machine :=
       __init__ (match retryPolicy with
                 | None => Backoff._defaultPolicy jitter
                 | Some given => given
                 end);
     warnings := 0 |}.

(** [ClientService.startService]:
    {[
    if self.running:
        self._log.warn("Duplicate ClientService.startService {log_source}")
        return
    super(ClientService, self).startService()
    self._machine.start()
    ]} *)
Definition startService (self : ClientService)
    : option (ClientService * Returned) :=
  if running self
  then Some ({| running := running self;
                _machine := _machine self;
                warnings := warnings self + 1 |}, result PyNone)
  else
    let self := {| running := true;
                   _machine := _machine self;
                   warnings := warnings self |} in
    '(machine, r) <- doInput start (_machine self) ;;
    Some ({| running := running self;
             _machine := machine;
             warnings := warnings self |},
          match r with
          | raised e => raised e
          | _ => result PyNone
          end).

(** [ClientService.stopService]:
    [super(ClientService, self).stopService(); return self._machine.stop()]. *)
Definition stopService (self : ClientService)
    : option (ClientService * Returned) :=
  let self := {| running := false;
                 _machine := _machine self;
                 warnings := warnings self |} in
  '(machine, r) <- doInput stop (_machine self) ;;
  Some ({| running := running self;
           _machine := machine;
           warnings := warnings self |}, r).

(** [ClientService.whenConnected]: [return self._machine.whenConnected()]. *)
Definition service_whenConnected (self : ClientService)
    : option (ClientService * Returned) :=
  '(machine, r) <- doInput whenConnected (_machine self) ;;
  Some ({| running := running self;
           _machine := machine;
           warnings := warnings self |}, r).

(** What happens to a service: its owner calls one of its three methods, or
    a collaborator calls back: the Deferred of the connect operation fires,
    the clock runs the retry call, the proxy notes the loss of the
    connection. *)
Inductive Event : Type :=
| calls_startService
| calls_stopService
| calls_whenConnected
| connect_fires (protocol : ProtocolProxy)
| connect_fails (f : Failure)
| retry_call_runs
| connection_is_lost.

(** The input of the machine a collaborator's callback is. *)
Definition deliver (i : Input) (self : ClientService)
    : option ClientService :=
  '(machine, _) <- doInput i (_machine self) ;;
  Some {| running := running self;
          _machine := machine;
          warnings := warnings self |}.

Definition happen (e : Event) (self : ClientService)
    : option ClientService :=
  match e with
  | calls_startService => option_map fst (startService self)
  | calls_stopService => option_map fst (stopService self)
  | calls_whenConnected => option_map fst (service_whenConnected self)
  | connect_fires protocol => deliver (_connectionMade protocol) self
  | connect_fails f => deliver (_connectionFailed f) self
  | retry_call_runs => deliver _reconnect self
  | connection_is_lost => deliver _clientDisconnected self
  end.

(** The services a new one becomes by events, whether the calls raise in an
    output of the machine or not. *)
Inductive service_reachable : ClientService -> Prop :=
| service_new (jitter : unit -> Q) (retryPolicy : option (nat -> Q)) :
    service_reachable (ClientService_init jitter retryPolicy)
| service_event (self self' : ClientService) (e : Event) :
    service_reachable self -> happen e self = Some self' ->
    service_reachable self'.

(** The machine of a running service is connecting, waiting to retry,
    connected or restarting; the machine of a service that is not running is
    new, disconnecting or stopped. *)
Definition flag_matches_state (self : ClientService) : Prop :=
  match state (_machine self) with
  | _connecting | _waiting | _connected | _restarting => running self = true
  | _init | _disconnecting | _stopped => running self = false
  | _connecting_first_time => False
  end.

(* ===================================================================== *)
(** * wormhole/server/cmd_server.py: stopping and restarting the server *)
(* ===================================================================== *)

Module Server.

Import String.

(** What the commands print. *)
Inductive Message : Type :=
| unable_to_find_pid_file   (* "Unable to find twistd.pid: is this really a
                               server directory?" *)
| ignoring_stop             (* "oh well, ignoring 'stop'" *)
| sent_SIGTERM (pid : Z)    (* "server process %d sent SIGTERM" *)
| waiting_for_shutdown      (* " waiting for shutdown.." *)
| unable_to_shut_down       (* "error: unable to shut down old server" *)
| old_server_shut_down      (* " old server shut down" *)
| starting_server.          (* "starting wormhole relay server" *)

(** What the commands do to the world, in order. *)
Inductive Effect : Type :=
| print (m : Message)
| sleep (seconds : Q)
| kill (pid : Z) (signal : Z)
| runApp (twistd_args : list string).

(** What the operating system answers:
    - [open_pid_file]: what [open("twistd.pid", "r")] followed by [read()]
      gives, [None] for [EnvironmentError];
    - [int_of]: [int(s.strip())], [None] for [ValueError];
    - [kill_succeeds]: whether [os.kill(pid, 15)] returns, rather than raise
      [OSError];
    - [path_exists k]: what the [k]-th call of
      [os.path.exists("twistd.pid")] returns. *)
Record OS : Type :=
  { open_pid_file : option string;
    int_of : string -> option Z;
    kill_succeeds : Z -> bool;
    path_exists : nat -> bool }.

(** How a command ends: it returns [None] or 1, it raises, or it has called
    [twistd.runApp], of which the source says "this forks and never comes
    back": what follows that call is twistd's, not the command's. *)
Inductive Outcome : Type :=
| returns_None
| returns_1
| raises
| in_runApp.

(** [start_server(args)], by [args.no_daemon]: the arguments given to
    twistd, the message, and the call of [twistd.runApp], the last thing the
    command does.  twistd is not part of the module: of [c.parseOptions] and
    [twistd.runApp] the model keeps the arguments the application is run
    with. *)
Definition start_server (no_daemon : bool) : list Effect :=
  let base_args := if no_daemon then ["--nodaemon"%string] else [] in
  let twistd_args := (base_args ++ ["XYZ"%string])%list in
  [print starting_server; runApp twistd_args].

(** [kill_server()]. *)
Definition kill_server (os : OS) : list Effect * Outcome :=
  match open_pid_file os with
  | None => ([print unable_to_find_pid_file; print ignoring_stop],
             returns_None)
  | Some content =>
      match int_of os content with
      | None => ([], raises)
      | Some pid =>
          if kill_succeeds os pid
          then ([kill pid 15; print (sent_SIGTERM pid)], returns_None)
          else ([], raises)
      end
  end.

(** [stop_server(args)]: [kill_server()]; the result of [kill_server] is
    dropped. *)
Definition stop_server (os : OS) : list Effect * Outcome :=
  let (effects, outcome) := kill_server os in
  match outcome with
  | raises => (effects, raises)
  | _ => (effects, returns_None)
  end.

(** The loop of [restart_server]:
    {[
    while os.path.exists("twistd.pid") and timeout < 10:
        if timeout == 0:
            print(" waiting for shutdown..")
        timeout += 1
        time.sleep(1)
    ]}
    from [timeout], when [asked] calls of [os.path.exists] were made before;
    the result is the effects and the number of calls made by the end.
    [fuel] bounds the iterations; [None] when it runs out. *)
Fixpoint wait_for_shutdown (os : OS) (fuel timeout asked : nat)
    : option (list Effect * nat) :=
  if path_exists os asked && (timeout <? 10)
  then
    match fuel with
    | O => None
    | S fuel' =>
        let first := if timeout =? 0 then [print waiting_for_shutdown]
                     else [] in
        '(effects, asked') <-
          wait_for_shutdown os fuel' (timeout + 1) (S asked) ;;
        Some ((first ++ sleep 1 :: effects)%list, asked')
    end
  else Some ([], S asked).

(** [restart_server(args)], by [args.no_daemon]; ten iterations are all the
    loop can make (see [wait_for_shutdown_ends]). *)
Definition restart_server (os : OS) (no_daemon : bool)
    : option (list Effect * Outcome) :=
  let (killing, outcome) := kill_server os in
  match outcome with
  | raises => Some (killing, raises)
  | _ =>
      '(waiting, asked) <- wait_for_shutdown os 10 0 0 ;;
      let effects := (killing ++ sleep (1 # 10) :: waiting)%list in
      if path_exists os asked
      then Some ((effects ++ [print unable_to_shut_down])%list, returns_1)
      else Some ((effects ++ print old_server_shut_down
                          :: start_server no_daemon)%list,
                 in_runApp)
  end.

(** The seconds slept, and whether the server was started. *)
Fixpoint slept (effects : list Effect) : Q :=
  match effects with
  | [] => 0
  | sleep seconds :: rest => (seconds + slept rest)%Q
  | _ :: rest => slept rest
  end.

Definition is_runApp (e : Effect) : bool :=
  match e with runApp _ => true | _ => false end.

Definition is_waiting_message (e : Effect) : bool :=
  match e with print waiting_for_shutdown => true | _ => false end.

End Server.

(** ** Further instances used as examples *)

(** Asked for a connection before any start. *)
Definition asked_early : _ClientMachine := after [whenConnected].

(** Asked to start again while the connection to protocol 7 is closing, with
    a waiter registered meanwhile. *)
Definition restarting_7 : _ClientMachine :=
  after [whenConnected; start; _connectionMade (proxy_of 7); stop;
         whenConnected; start].

(** The service a new one, with the default policy and no jitter, becomes by
    [events]. *)
Fixpoint happen_all (events : list Event) (self : ClientService)
    : option ClientService :=
  match events with
  | [] => Some self
  | e :: rest => self' <- happen e self ;; happen_all rest self'
  end.

Definition service_after (events : list Event) : ClientService :=
  match happen_all events (ClientService_init (fun _ => 0%Q) None) with
  | Some self => self
  | None => ClientService_init (fun _ => 0%Q) None
  end.

(** A service started and connected to protocol 7. *)
Definition service_connected_to_7 : ClientService :=
  service_after [calls_whenConnected; calls_startService;
                 connect_fires (proxy_of 7)].

(** A service whose first connection attempt has failed, and the same once
    its owner has called [stopService]. *)
Definition service_after_a_failure : ClientService :=
  service_after [calls_startService; connect_fails (ConnectError 1)].


(** An operating system where the server of pid 4242 takes three seconds to
    remove its pid file, and one where it never does. *)
Definition slow_shutdown : Server.OS :=
  {| Server.open_pid_file := Some String.EmptyString;
     Server.int_of := fun _ => Some 4242%Z;
     Server.kill_succeeds := fun _ => true;
     Server.path_exists := fun k => k <? 3 |}.

Definition no_shutdown : Server.OS :=
  {| Server.open_pid_file := Some String.EmptyString;
     Server.int_of := fun _ => Some 4242%Z;
     Server.kill_succeeds := fun _ => true;
     Server.path_exists := fun _ => true |}.

(* ===================================================================== *)
(** * Properties *)
(* ===================================================================== *)

(** ** The retry policy *)

Section BackoffFacts.

Import Backoff.
Local Open Scope Q_scope.

(** What the expression of the code is, in exact arithmetic, for every
    attempt count and every jitter: the exponent is the attempt count
    itself. *)
Lemma backoffPolicy_unfold (initialDelay maxDelay factor j : Q) (n : nat) :
  backoffPolicy initialDelay maxDelay factor (fun _ => j) n
  == Qmin (initialDelay * factor ^ Z.of_nat n) maxDelay + j.
Proof. unfold backoffPolicy. reflexivity. Qed.

(** The jitter is added after capping: in exact arithmetic the delay lies
    within one second above its own capped exponential. *)
Lemma backoffPolicy_window (initialDelay maxDelay factor j : Q) (n : nat) :
  0 <= j -> j < 1 ->
  Qmin (initialDelay * factor ^ Z.of_nat n) maxDelay
  <= backoffPolicy initialDelay maxDelay factor (fun _ => j) n
  /\ backoffPolicy initialDelay maxDelay factor (fun _ => j) n
     < Qmin (initialDelay * factor ^ Z.of_nat n) maxDelay + 1.
Proof.
  intros H0 H1. unfold backoffPolicy.
  set (capped := Qmin (initialDelay * factor ^ Z.of_nat n) maxDelay). split.
  - rewrite <- (Qplus_0_r capped) at 1. apply Qplus_le_r. exact H0.
  - apply Qplus_lt_r. exact H1.
Qed.

(** C1. With the default parameters and a jitter of zero, the delay the code
    returns for the third failed attempt is 27/8 = 3.375 seconds (1.0, 1.5,
    60.0, 3.375 and the intermediate results are floats, exactly); the
    specified delay [min(initialDelay * factor^(n-1), maxDelay) + j] is
    9/4 = 2.25 seconds, and the code's delay lies outside the specified
    window from 9/4 to 13/4. *)
Theorem backoffPolicy_third_attempt :
  _defaultPolicy (fun _ => 0) 3%nat == 27 # 8
  /\ spec_delay default_initialDelay default_maxDelay default_factor 0 3
     == 9 # 4
  /\ ~ _defaultPolicy (fun _ => 0) 3%nat
       == spec_delay default_initialDelay default_maxDelay default_factor 0 3
  /\ ~ _defaultPolicy (fun _ => 0) 3%nat
       < spec_delay default_initialDelay default_maxDelay default_factor 0 3
         + 1.
Proof.
  split; [reflexivity|]. split; [reflexivity|]. split.
  - intro H. vm_compute in H. discriminate H.
  - intro H. vm_compute in H. discriminate H.
Qed.

(** The docstring calls [initialDelay] the delay for the first reconnection
    attempt; the machine calls the policy with 1 for it (see [_wait]), and
    the code then returns [initialDelay * factor]. *)
Lemma backoffPolicy_first_attempt :
  _defaultPolicy (fun _ => 0) 1%nat == 3 # 2
  /\ ~ _defaultPolicy (fun _ => 0) 1%nat == default_initialDelay.
Proof.
  split; [reflexivity|]. intro H. vm_compute in H. discriminate H.
Qed.

End BackoffFacts.

(** ** Lists *)

Lemma nth_error_last (A : Type) (a : list A) (x : A) :
  nth_error (a ++ [x]) (length a) = Some x.
Proof. induction a as [|y a IH]; simpl; auto. Qed.

Lemma update_last (A : Type) (a : list A) (x y : A) :
  update (length a) y (a ++ [x]) = a ++ [y].
Proof. induction a as [|z a IH]; simpl; [reflexivity|]. now rewrite IH. Qed.

Lemma length_update (A : Type) (k : nat) (x : A) (l : list A) :
  length (update k x l) = length l.
Proof.
  revert k. induction l as [|y l IH]; intros [|k]; simpl; auto.
Qed.

(** ** Deferreds *)

Lemma called_false (d : nat) (self : _ClientMachine) :
  called d self = false <-> ~ In d (map fst (callbacks self)).
Proof.
  unfold called. split.
  - intros H Hin.
    assert (existsb (Nat.eqb d) (map fst (callbacks self)) = true) as E.
    { apply existsb_exists. exists d. split; [exact Hin|].
      apply Nat.eqb_refl. }
    congruence.
  - intros H. destruct (existsb _ _) eqn:E; [|reflexivity].
    apply existsb_exists in E. destruct E as [x [Hx Hd]].
    apply Nat.eqb_eq in Hd. subst x. contradiction.
Qed.

(** Firing a list of distinct Deferreds none of which has fired: no call
    raises, and the firings are recorded in the order of the list. *)
Lemma for_each_callback (value : Result) (waiting : list nat) :
  forall self : _ClientMachine,
    NoDup (waiting ++ map fst (callbacks self)) ->
    for_each (fun w => callback w value) waiting self
    = Some (set_callbacks (callbacks self ++ firings value waiting) self).
Proof.
  unfold firings.
  induction waiting as [|w waiting IH]; intros self Hnd; simpl.
  - rewrite app_nil_r. destruct self; reflexivity.
  - simpl in Hnd. apply NoDup_cons_iff in Hnd. destruct Hnd as [Hw Hnd].
    unfold callback at 1.
    assert (called w self = false) as ->.
    { apply called_false. intros Hin. apply Hw, in_or_app. now right. }
    rewrite IH.
    + destruct self; simpl. now rewrite <- app_assoc.
    + destruct self as [s fa pol cip cc rc aw sw ec ck tl df cb]; simpl in *.
      rewrite map_app, app_assoc. simpl.
      apply Permutation_NoDup with (l := w :: waiting ++ map fst cb).
      * apply Permutation_cons_append.
      * apply NoDup_cons; assumption.
Qed.

Arguments called : simpl never.
Arguments callback : simpl never.
Arguments for_each : simpl never.
Arguments firings : simpl never.

Lemma map_fst_firings (value : Result) (waiting : list nat) :
  map fst (firings value waiting) = waiting.
Proof.
  unfold firings. rewrite map_map. simpl. apply map_id.
Qed.

(** Counting the occurrences of a Deferred in the lists a step builds. *)
Ltac occurrences_in H :=
  repeat (rewrite ?map_app, ?map_fst_firings, ?count_occ_app in H;
          simpl in H);
  repeat (rewrite ?map_app, ?map_fst_firings, ?count_occ_app; simpl);
  repeat match goal with
    | |- context [Nat.eq_dec ?a ?b] => destruct (Nat.eq_dec a b); subst
    | _ : context [Nat.eq_dec ?a ?b] |- _ => destruct (Nat.eq_dec a b); subst
    end;
  try lia.

Lemma distinct_of_occurrences (l : list nat) :
  (forall d, count_occ Nat.eq_dec l d <= 1) -> NoDup l.
Proof. intros H. apply (NoDup_count_occ Nat.eq_dec). exact H. Qed.

(** Distinct Deferreds, from the occurrences counted in [H]. *)
Ltac distinct H :=
  apply distinct_of_occurrences;
  let d := fresh "d" in
  intros d; specialize (H d); occurrences_in H.

(** ** One input on a consistent instance *)

(** Opens an instance and its consistency, by state. *)
Ltac open_instance self Hd :=
  let H := fresh "Hcons" in
  intros H;
  destruct self as [s fa pol cip cc rc aw sw ec ck tl df cb];
  destruct H as [Hc Hk Hp Hf Hs Hd];
  unfold distinct_deferreds in Hd;
  cbn in Hc, Hk, Hp, Hf, Hs, Hd.

(** Names what the consistency of the state at hand gives. *)
Ltac use_consistency :=
  repeat match goal with
    | H : exists _, _ |- _ => destruct H
    | H : _ /\ _ |- _ => destruct H
    | H : True |- _ => clear H
    end;
  subst.

(** No connect operation in flight, no retry call pending, in lists built
    from lists that had none. *)
Ltac filters :=
  repeat match goal with
    | H : filter _ _ = [] |- _ => rewrite ?filter_app, ?H; clear H
    end;
  rewrite ?filter_app; cbn; auto.

(** The consistency of the instance an input leaves, field by field. *)
Ltac restore_consistency Hd :=
  constructor; cbn;
  [ try (eexists; repeat split; [reflexivity ..|]; filters); filters
  | first
      [ solve [ left; unfold retry_pending; cbn; do 2 eexists;
                repeat split; [reflexivity ..|]; filters ]
      | solve [ right; filters ]
      | filters ]
  | eauto
  | try lia; auto
  | auto
  | let d := fresh "d" in
    intros d; cbn; specialize (Hd d); split; [|intros ?]; occurrences_in Hd ].

Lemma none_in_flight (l : list AttemptStatus) (k : nat) :
  filter is_InFlight l = [] -> nth_error l k <> Some InFlight.
Proof.
  intros H E. apply nth_error_In in E.
  assert (In InFlight (filter is_InFlight l)) as Hin
    by (apply filter_In; split; [exact E | reflexivity]).
  rewrite H in Hin. exact Hin.
Qed.

Lemma none_pending (l : list (Q * CallStatus)) (k : nat) (delay : Q) :
  filter is_Pending l = [] -> nth_error l k <> Some (delay, Pending).
Proof.
  intros H E. apply nth_error_In in E.
  assert (In (delay, Pending) (filter is_Pending l)) as Hin
    by (apply filter_In; split; [exact E | reflexivity]).
  rewrite H in Hin. exact Hin.
Qed.

(** Evaluates an input on an opened instance, as far as the instance is
    known. *)
Ltac reduce H Hd :=
  unfold doInput, doInput_with in H;
  repeat (progress
    (cbn in H;
     unfold _cancelConnectWaiters1, _cancelConnectWaiters, _finishStopping1,
       _finishStopping, _notifyWaiters, _notifyInitialConnectionFailed,
       _unawait, _stopConnecting, _stopRetrying, _wait1, _wait, left_by,
       doInput_nested, doInput_with in H;
     cbn in H;
     rewrite ?nth_error_last, ?update_last in H;
     try rewrite for_each_callback in H by (cbn; distinct Hd))).

(** The connect operation or the retry call at hand, where none is in flight
    or pending: there is none, or it is over. *)
Ltac over H :=
  first
    [ match type of H with
      | context [nth_error ?l ?k] =>
          let E := fresh "E" in
          first
            [ destruct (nth_error l k) as [[| |]|] eqn:E;
              [ exfalso; eapply none_in_flight; eassumption | .. ]
            | destruct (nth_error l k) as [[? [| |]]|] eqn:E;
              [ exfalso; eapply none_pending; eassumption | .. ] ]
      end
    | match type of H with
      | context [match ?c with Some _ => _ | None => _ end] =>
          is_var c; destruct c
      end ].

(** Evaluates an input on an opened instance. *)
Ltac evaluate H Hd :=
  reduce H Hd;
  repeat (over H; reduce H Hd);
  try discriminate H;
  try (injection H as <- <-).

(** In [_waiting]: the retry call is pending, or no call is. *)
Ltac retry_or_not :=
  try match goal with
    | H : retry_pending _ \/ _ |- _ =>
        destruct H as [H|H]; [unfold retry_pending in H; cbn in H|]
    end.

(** Every state and every input, on an opened instance. *)
Ltac by_cases H Hd :=
  match goal with s : State |- _ => destruct s end;
  cbn in * |-; retry_or_not; use_consistency;
  match goal with i : Input |- _ => destruct i end;
  evaluate H Hd.

Lemma doInput_consistent (self self' : _ClientMachine) (i : Input)
    (r : Returned) :
  consistent self -> doInput i self = Some (self', r) -> consistent self'.
Proof.
  open_instance self Hd. intros H. by_cases H Hd.
  all: restore_consistency Hd.
Qed.

Lemma init_consistent (retryPolicy : nat -> Q) :
  consistent (__init__ retryPolicy).
Proof. constructor; cbn; auto. intros d; cbn; auto. Qed.

Lemma reachable_consistent (self : _ClientMachine) :
  reachable self -> consistent self.
Proof.
  induction 1 as [retryPolicy | self self' i r _ IH H].
  - apply init_consistent.
  - exact (doInput_consistent self self' i r IH H).
Qed.

Lemma run_reachable (inputs : list Input) :
  forall self self', reachable self -> run inputs self = Some self' ->
                     reachable self'.
Proof.
  induction inputs as [|i inputs IH]; intros self self' Hr H; simpl in H.
  - now injection H as <-.
  - destruct (doInput i self) as [[self1 r]|] eqn:E; [|discriminate H].
    apply (IH self1); [|exact H]. exact (reachable_input self self1 i r Hr E).
Qed.

(** An input raises [NoTransition] exactly where the class declares no
    transition for it. *)
Lemma NoTransition_by_state (self : _ClientMachine) (i : Input) :
  doInput i self = None <-> upon (fun _ self => self) (state self) i = None.
Proof.
  unfold doInput, doInput_with.
  match goal with
  | |- context [upon ?reenter (state self) i] =>
      assert (upon reenter (state self) i = None
              <-> upon (fun _ self => self) (state self) i = None) as <-
        by (destruct (state self), i; cbn; split; intros Habs;
            solve [reflexivity | discriminate Habs]);
      destruct (upon reenter (state self) i) as [[[outState outputs] c]|]
  end; [|tauto].
  destruct (run_outputs _ _) as [? [?|?]]; split; intros Habs;
    discriminate Habs.
Qed.

(** ** The failed-attempt counter *)

(** C2. On every input for which the state of a reachable instance has a
    transition, whether its outputs raise or not, the counter of failed
    attempts is reset only by [_connectionMade]; every other input leaves it
    unchanged or adds one to it.  (The reset of [_disconnecting.upon(start)]
    finds the counter at zero: see [consistent_failedAttempts].) *)
Theorem failedAttempts_never_decrease (self self' : _ClientMachine)
    (i : Input) (r : Returned) :
  reachable self -> doInput i self = Some (self', r) ->
  match i with
  | _connectionMade _ => _failedAttempts self' = 0
  | _ => _failedAttempts self <= _failedAttempts self'
         /\ _failedAttempts self' <= _failedAttempts self + 1
  end.
Proof.
  intros Hr. apply reachable_consistent in Hr. revert Hr.
  open_instance self Hd. intros H. by_cases H Hd; cbn; lia.
Qed.

(** What [_resetFailedAttempts] finds: it is the output of
    [_disconnecting.upon(start)] only, and between two inputs a disconnecting
    machine has no failed attempt. *)
Lemma disconnecting_without_failed_attempts (self : _ClientMachine) :
  reachable self -> state self = _disconnecting -> _failedAttempts self = 0.
Proof.
  intros Hr Hstate. apply reachable_consistent in Hr.
  destruct Hr as [_ _ _ Hf _ _]. rewrite Hstate in Hf. exact Hf.
Qed.

(** The counter grows where [_wait] runs, on the loss of the connection, and
    there only: the output of a failed attempt, [_wait1], raises before it
    counts. *)
Lemma failedAttempts_grow_on_loss (self self' : _ClientMachine) (i : Input)
    (r : Returned) :
  reachable self -> doInput i self = Some (self', r) ->
  _failedAttempts self < _failedAttempts self' ->
  state self = _connected /\ i = _clientDisconnected
  /\ _failedAttempts self = 0 /\ _failedAttempts self' = 1.
Proof.
  intros Hr. apply reachable_consistent in Hr. revert Hr.
  open_instance self Hd. intros H. by_cases H Hd; cbn; intros; try lia; auto.
Qed.

(** ** The current connection *)

(** C3, as amended.  Between two inputs the current connection is set in
    [_connected], and still set in [_disconnecting] and [_restarting], where
    the connection being closed is kept until [_clientDisconnected]; it is
    absent in [_init] and [_connecting_first_time]. *)
Theorem currentConnection_by_state (self : _ClientMachine) :
  reachable self ->
  (state self = _connected \/ state self = _disconnecting
   \/ state self = _restarting ->
   exists p, _currentConnection self = Some p)
  /\ (state self = _init \/ state self = _connecting_first_time ->
      _currentConnection self = None).
Proof.
  intros Hr. apply reachable_consistent in Hr.
  destruct Hr as [_ _ Hp _ _ _].
  split; intros Hs; destruct (state self); auto;
    repeat (destruct Hs as [Hs|Hs]; try discriminate Hs).
Qed.

(** ** Connect operations and retry calls *)

Lemma consistent_counts (self : _ClientMachine) :
  consistent self ->
  in_flight self = (if attempting (state self) then 1 else 0)
  /\ pending_calls self <= 1
  /\ (pending_calls self = 1 -> state self = _waiting).
Proof.
  open_instance self Hd. unfold in_flight, pending_calls. cbn.
  destruct s; cbn in * |-; retry_or_not; use_consistency; cbn.
  all: repeat split; filters.
  all: repeat match goal with
         | H : filter _ _ = [] |- _ => rewrite ?filter_app, ?H; clear H
         end; cbn; intros; try lia; try congruence.
Qed.

(** The calls pending, in the lists a step builds. *)
Ltac count_pending :=
  unfold in_flight, pending_calls; cbn;
  rewrite ?filter_app, ?length_app; cbn;
  repeat match goal with
    | H : filter _ _ = [] |- _ => rewrite ?H; clear H
    end;
  cbn.

(** C9. A reachable instance has at most one connect operation in flight,
    namely in the two connecting states, and at most one retry call pending,
    and that in [_waiting] only; an input issues a connect operation only
    when none is in flight, schedules a retry call only when none is pending,
    and leaves no retry call pending when it leaves [_waiting]. *)
Theorem single_attempt_single_timer (self : _ClientMachine) :
  reachable self ->
  in_flight self <= 1
  /\ pending_calls self <= 1
  /\ (in_flight self = 1 <-> attempting (state self) = true)
  /\ (pending_calls self = 1 -> state self = _waiting)
  /\ forall (i : Input) (self' : _ClientMachine) (r : Returned),
       doInput i self = Some (self', r) ->
       (length (endpoint_connects self) < length (endpoint_connects self') ->
        in_flight self = 0
        /\ endpoint_connects self' = endpoint_connects self ++ [InFlight])
       /\ (length (clock_calls self) < length (clock_calls self') ->
           pending_calls self = 0 /\ pending_calls self' = 1)
       /\ (state self = _waiting -> state self' <> _waiting ->
           pending_calls self' = 0)
       /\ in_flight self' <= 1 /\ pending_calls self' <= 1.
Proof.
  intros Hr. apply reachable_consistent in Hr.
  destruct (consistent_counts self Hr) as [Hf [Hp Hw]].
  repeat match goal with |- _ /\ _ => split end.
  - rewrite Hf. destruct (attempting (state self)); lia.
  - exact Hp.
  - rewrite Hf. destruct (attempting (state self)); split; congruence.
  - exact Hw.
  - intros i self' r H.
    pose proof (doInput_consistent self self' i r Hr H) as Hr'.
    destruct (consistent_counts self' Hr') as [Hf' [Hp' _]].
    split; [|split; [|split; [|split; [|exact Hp']]]].
    4: rewrite Hf'; destruct (attempting (state self')); lia.
    all: clear Hf Hp Hw Hf' Hp' Hr'; revert Hr H; open_instance self Hd;
      intros H; by_cases H Hd; cbn; rewrite ?length_app, ?length_update; cbn;
      intros; try lia; try congruence.
    all: count_pending; auto; try lia.
Qed.
(** ** Waiting for a connection *)

Lemma not_called_of_count (d : nat) (self : _ClientMachine) :
  count_occ Nat.eq_dec (map fst (callbacks self)) d = 0 ->
  called d self = false.
Proof.
  intros H. apply called_false. apply (count_occ_not_In Nat.eq_dec). exact H.
Qed.

Lemma in_firings (value : Result) (waiting : list nat) (d : nat) :
  In d waiting -> In (d, value) (firings value waiting).
Proof.
  intros H. unfold firings. apply in_map_iff. exists d. split; auto.
Qed.

(** Every state, on an opened instance, for a given input. *)
Ltac by_state H Hd :=
  match goal with s : State |- _ => destruct s end;
  cbn in * |-; try discriminate; retry_or_not; use_consistency;
  evaluate H Hd.

(** Runs [input] on [self], known consistent, state by state. *)
Ltac run_input input self Hr Hd :=
  let H := fresh "H" in
  let self' := fresh "self'" in
  let r := fresh "r" in
  destruct (doInput input self) as [[self' r]|] eqn:H;
  revert Hr H; open_instance self Hd; intros H; by_state H Hd.

(** From the counts of occurrences to the firing of a Deferred. *)
Ltac not_called Hd :=
  apply not_called_of_count; cbn;
  match goal with
  | |- count_occ _ _ ?d = 0 => specialize (Hd d); solve [occurrences_in Hd]
  end.

Ltac fired Hd :=
  unfold fired_once; cbn; split;
  [ rewrite ?in_app_iff; cbn;
    solve [auto 8 using in_firings, in_eq, in_or_app]
  | match goal with
    | |- count_occ _ _ ?d = 1 => specialize (Hd d); solve [occurrences_in Hd]
    end ].

(** C5. [whenConnected] on a reachable instance returns a new Deferred and
    leaves the state as it is; in [_connected] the Deferred has fired with
    the current connection, in [_stopped] it has fired with
    [Failure(CancelledError())], and in the six other states it has not fired
    and is the last of the waiters. *)
Theorem whenConnected_by_state (self : _ClientMachine) :
  reachable self ->
  exists (self' : _ClientMachine) (d : nat),
    doInput whenConnected self = Some (self', result (ADeferred d))
    /\ state self' = state self
    /\ d = deferreds self
    /\ called d self = false
    /\ match state self with
       | _connected =>
           exists p, _currentConnection self = Some p
                     /\ callbacks self' = callbacks self ++ [(d, RProtocol p)]
                     /\ _awaitingConnected self' = _awaitingConnected self
       | _stopped =>
           callbacks self' = callbacks self ++ [(d, RFailure CancelledError)]
           /\ _awaitingConnected self' = _awaitingConnected self
       | _ =>
           callbacks self' = callbacks self
           /\ _awaitingConnected self' = _awaitingConnected self ++ [d]
       end.
Proof.
  intros Hr. apply reachable_consistent in Hr.
  run_input whenConnected self Hr Hd.
  all: do 2 eexists; repeat (split; [reflexivity|]); cbn.
  all: (split; [not_called Hd|]); eauto.
Qed.

(** ** Failing the first time *)

(** C6. In [_connecting_first_time] (entered by [startAndFailTheFirstTime]
    only), the failure [f] of the connection attempt stops the machine: no
    retry call was or is scheduled, and every waiter fires, once, with [f]
    itself. *)
Theorem first_failure_stops (self : _ClientMachine) (f : Failure) :
  reachable self -> state self = _connecting_first_time ->
  exists self' : _ClientMachine,
    doInput (_connectionFailed f) self = Some (self', results [PyNone])
    /\ state self' = _stopped
    /\ clock_calls self' = []
    /\ _retryCall self' = None
    /\ pending_calls self' = 0
    /\ _awaitingConnected self' = []
    /\ callbacks self'
       = callbacks self ++ firings (RFailure f) (_awaitingConnected self)
    /\ forall w, In w (_awaitingConnected self) ->
                 called w self = false /\ fired_once w (RFailure f) self'.
Proof.
  intros Hr Hstate. apply reachable_consistent in Hr.
  run_input (_connectionFailed f) self Hr Hd.
  eexists; repeat (split; [reflexivity|]); cbn.
  intros w Hw. pose proof (proj1 (count_occ_In Nat.eq_dec _ _) Hw) as Hw'.
  split; [not_called Hd | fired Hd].
Qed.

(** Where [_connecting_first_time] comes from. *)
Lemma startAndFailTheFirstTime_enters (self self' : _ClientMachine)
    (i : Input) (r : Returned) :
  reachable self -> doInput i self = Some (self', r) ->
  state self' = _connecting_first_time ->
  state self = _connecting_first_time
  \/ (state self = _init /\ i = startAndFailTheFirstTime).
Proof.
  intros Hr. apply reachable_consistent in Hr. revert Hr.
  open_instance self Hd. intros H. by_cases H Hd; cbn; auto; discriminate.
Qed.

(** ** The connection handed to consumers *)

(** While the machine stays in [_connected], the current connection stays. *)
Lemma remains_connected (self self' : _ClientMachine) :
  remains _connected self self' ->
  consistent self -> state self = _connected ->
  consistent self' /\ state self' = _connected
  /\ _currentConnection self' = _currentConnection self.
Proof.
  induction 1 as [self | self self1 self2 i r H Hstate _ IH];
    intros Hcons Hself; [auto|].
  pose proof (doInput_consistent self self1 i r Hcons H) as Hcons1.
  destruct (IH Hcons1 Hstate) as [Hc2 [Hs2 Hp2]].
  split; [exact Hc2 | split; [exact Hs2 |]]. rewrite Hp2.
  clear IH Hc2 Hs2 Hp2 Hcons1.
  revert Hcons H. open_instance self Hd. intros H.
  by_cases H Hd; cbn in *; congruence.
Qed.

(** C10. When a connection attempt of a reachable instance succeeds with the
    proxy that the [_DisconnectFactory] built around the caller's factory,
    the machine keeps the protocol of the caller's factory, not the proxy:
    every waiter fires with that protocol, and so does the Deferred of every
    [whenConnected] made while the machine remains in [_connected]. *)
Theorem consumers_get_the_wrapped_protocol (self : _ClientMachine)
    (factory : nat -> Protocol) (addr : nat) :
  reachable self -> attempting (state self) = true ->
  let factoryProxy := Proxy.Build_factory factory calls_clientDisconnected in
  let protocol := Proxy.buildProtocol factoryProxy addr in
  exists self1 : _ClientMachine,
    doInput (_connectionMade protocol) self = Some (self1, results [PyNone])
    /\ state self1 = _connected
    /\ _currentConnection self1 = Some (factory addr)
    /\ callbacks self1
       = callbacks self
         ++ firings (RProtocol (factory addr)) (_awaitingConnected self)
    /\ (forall w, In w (_awaitingConnected self) ->
                  fired_once w (RProtocol (factory addr)) self1)
    /\ forall self2 : _ClientMachine,
         remains _connected self1 self2 ->
         exists (self3 : _ClientMachine) (d : nat),
           doInput whenConnected self2 = Some (self3, result (ADeferred d))
           /\ fired_once d (RProtocol (factory addr)) self3.
Proof.
  intros Hr Hstate factoryProxy protocol.
  assert (exists self1 : _ClientMachine,
    doInput (_connectionMade protocol) self = Some (self1, results [PyNone])
    /\ state self1 = _connected
    /\ _currentConnection self1 = Some (factory addr)
    /\ callbacks self1
       = callbacks self
         ++ firings (RProtocol (factory addr)) (_awaitingConnected self)
    /\ (forall w, In w (_awaitingConnected self) ->
                  fired_once w (RProtocol (factory addr)) self1)) as Hmade.
  { pose proof (reachable_consistent self Hr) as Hcons. clear Hr.
    run_input (_connectionMade protocol) self Hcons Hd.
    all: eexists; repeat (split; [reflexivity|]); cbn.
    all: intros w Hw;
      pose proof (proj1 (count_occ_In Nat.eq_dec _ _) Hw) as Hw'; fired Hd. }
  destruct Hmade as [self1 [Hmade [Hs1 [Hp1 [Hcb Hw]]]]].
  exists self1. repeat (split; [assumption|]).
  intros self2 Hrem.
  assert (reachable self1) as Hr1
    by exact (reachable_input self self1 _ _ Hr Hmade).
  destruct (remains_connected self1 self2 Hrem
              (reachable_consistent self1 Hr1) Hs1) as [Hc2 [Hs2 Hp2]].
  rewrite Hp1 in Hp2. clear Hrem Hr1 Hw Hcb Hp1 Hs1 Hmade Hstate Hr.
  run_input whenConnected self2 Hc2 Hd.
  do 2 eexists; split; [reflexivity|]. fired Hd.
Qed.

(** ** Stopping *)

(** From what is known of the waiters to the counts of occurrences. *)
Lemma waits_unfired (d : nat) (waiters : list nat) (self : _ClientMachine) :
  In d waiters -> called d self = false ->
  count_occ Nat.eq_dec waiters d > 0
  /\ count_occ Nat.eq_dec (map fst (callbacks self)) d = 0.
Proof.
  intros Hin Hnot. split.
  - apply (count_occ_In Nat.eq_dec). exact Hin.
  - apply (count_occ_not_In Nat.eq_dec). apply called_false. exact Hnot.
Qed.

(** A completion signal that waits in a stopped machine keeps waiting, and the
    machine stays stopped, whatever the input, short of a new [start]. *)
Lemma stopped_signal_waits (self self' : _ClientMachine) (i : Input)
    (r : Returned) (d : nat) :
  consistent self -> doInput i self = Some (self', r) -> i <> start ->
  state self = _stopped /\ In d (_stopWaiters self) /\ called d self = false ->
  state self' = _stopped /\ In d (_stopWaiters self')
  /\ called d self' = false.
Proof.
  open_instance self Hd. intros H Hi [Hstate [Hin Hnot]].
  destruct (waits_unfired d _ _ Hin Hnot) as [Hpos Hzero].
  cbn in Hstate, Hin, Hpos, Hzero. subst s. clear Hnot.
  destruct i; evaluate H Hd; try congruence.
  all: split; [reflexivity|]; split; [exact Hin|]; not_called Hd.
Qed.

Lemma stopped_signal_waits_on (inputs : list Input) (d : nat) :
  forall self self' : _ClientMachine,
    consistent self -> run inputs self = Some self' -> ~ In start inputs ->
    state self = _stopped /\ In d (_stopWaiters self)
    /\ called d self = false ->
    state self' = _stopped /\ In d (_stopWaiters self')
    /\ called d self' = false.
Proof.
  induction inputs as [|i inputs IH]; intros self self' Hcons H Hno Hwaits;
    simpl in H.
  - now injection H as <-.
  - destruct (doInput i self) as [[self1 r]|] eqn:E; [|discriminate H].
    apply (IH self1 self'); [|exact H| |].
    + exact (doInput_consistent self self1 i r Hcons E).
    + intros Hin. apply Hno. now right.
    + apply (stopped_signal_waits self self1 i r d Hcons E); [|exact Hwaits].
      intros ->. apply Hno. now left.
Qed.

(** C7 fails in the code: [stop] while a connection attempt is under way.
    The call returns a Deferred and the machine is stopped on return, with no
    connect operation in flight and no retry call pending: the shutdown is
    over.  But the Deferred has not fired: the errback of the cancelled
    attempt, [_connectionFailed] in [_disconnecting], raises [AttributeError]
    in its first output, [_cancelConnectWaiters1], and [_finishStopping1]
    does not run.  A second [stop] returns another Deferred, which has fired;
    the first one still waits, and whatever inputs follow, short of a new
    [start], it never fires. *)
Theorem stop_while_connecting_never_completes (self : _ClientMachine) :
  reachable self -> attempting (state self) = true ->
  exists (self1 : _ClientMachine) (d1 : nat) (self2 : _ClientMachine)
         (d2 : nat),
    doInput stop self = Some (self1, result (ADeferred d1))
    /\ doInput stop self1 = Some (self2, result (ADeferred d2))
    /\ d1 <> d2
    /\ state self1 = _stopped
    /\ in_flight self1 = 0
    /\ pending_calls self1 = 0
    /\ called d1 self1 = false
    /\ state self2 = _stopped
    /\ fired_once d2 RNone self2
    /\ called d1 self2 = false
    /\ forall (inputs : list Input) (self' : _ClientMachine),
         ~ In start inputs -> run inputs self1 = Some self' ->
         state self' = _stopped /\ In d1 (_stopWaiters self')
         /\ called d1 self' = false.
Proof.
  intros Hr Hstate. apply reachable_consistent in Hr.
  assert (exists (self1 : _ClientMachine) (d1 : nat),
    doInput stop self = Some (self1, result (ADeferred d1))
    /\ d1 = deferreds self /\ deferreds self1 = S d1
    /\ in_flight self1 = 0 /\ pending_calls self1 = 0
    /\ state self1 = _stopped /\ In d1 (_stopWaiters self1)
    /\ called d1 self1 = false) as Hfirst.
  { run_input stop self Hr Hd.
    all: do 2 eexists; repeat (split; [reflexivity|]).
    all: split; [count_pending; reflexivity|].
    all: split; [count_pending; reflexivity|].
    all: split; [reflexivity|]; cbn.
    all: split; [rewrite ?in_app_iff; cbn; auto | not_called Hd]. }
  destruct Hfirst
    as [self1 [d1 [H1 [Hd1 [Hn1 [Hf1 [Hp1 [Hs1 [Hin1 Hnot1]]]]]]]]].
  pose proof (doInput_consistent _ _ _ _ Hr H1) as Hr1.
  assert (exists (self2 : _ClientMachine) (d2 : nat),
    doInput stop self1 = Some (self2, result (ADeferred d2))
    /\ d2 = deferreds self1 /\ fired_once d2 RNone self2) as Hsecond.
  { clear H1 Hin1 Hnot1 Hf1 Hp1 Hn1 Hd1 Hstate Hr.
    run_input stop self1 Hr1 Hd.
    do 2 eexists; repeat (split; [reflexivity|]). fired Hd. }
  destruct Hsecond as [self2 [d2 [H2 [Hd2 Hfired2]]]].
  exists self1, d1, self2, d2.
  split; [exact H1|]. split; [exact H2|]. split; [lia|].
  split; [exact Hs1|]. split; [exact Hf1|]. split; [exact Hp1|].
  split; [exact Hnot1|].
  destruct (stopped_signal_waits self1 self2 stop _ d1 Hr1 H2)
    as [Hs2 [_ Hnot2]]; [discriminate | auto |].
  split; [exact Hs2|]. split; [exact Hfired2|]. split; [exact Hnot2|].
  intros inputs self' Hno Hrun.
  apply (stopped_signal_waits_on inputs d1 self1 self' Hr1 Hrun Hno). auto.
Qed.

(** ** The waiter registry *)

Lemma register_appends (n : nat) :
  forall self : _ClientMachine,
    register n self
    = Some (set_awaitingConnected
              (_awaitingConnected self ++ seq (deferreds self) n)
              (set_deferreds (deferreds self + n) self)).
Proof.
  induction n as [|n IH]; intros self; simpl.
  - destruct self; cbn. now rewrite app_nil_r, Nat.add_0_r.
  - rewrite IH. destruct self; cbn.
    now rewrite <- app_assoc, Nat.add_succ_r.
Qed.

(** Firing distinct Deferreds whose callbacks register new waiters: the
    firings are those of the list, in its order; the new waiters are new
    Deferreds, and none of them fires. *)
Lemma for_each_callback_registering (n : nat -> nat) (value : Result)
    (waiting : list nat) :
  forall self : _ClientMachine,
    NoDup (waiting ++ map fst (callbacks self)) ->
    for_each (fun w => callback_registering n w value) waiting self
    = Some (set_callbacks (callbacks self ++ firings value waiting)
              (set_awaitingConnected
                 (_awaitingConnected self
                  ++ seq (deferreds self) (list_sum (map n waiting)))
                 (set_deferreds
                    (deferreds self + list_sum (map n waiting)) self))).
Proof.
  unfold firings.
  induction waiting as [|w waiting IH]; intros self Hnd.
  - destruct self; cbn. now rewrite !app_nil_r, Nat.add_0_r.
  - simpl in Hnd. apply NoDup_cons_iff in Hnd. destruct Hnd as [Hw Hnd].
    change (for_each (fun w0 => callback_registering n w0 value)
              (w :: waiting) self)
      with (match callback_registering n w value self with
            | Some self' =>
                for_each (fun w0 => callback_registering n w0 value)
                  waiting self'
            | None => None
            end).
    unfold callback_registering at 1. unfold callback.
    assert (called w self = false) as ->.
    { apply called_false. intros Hin. apply Hw, in_or_app. now right. }
    rewrite register_appends.
    destruct self as [s fa pol cip cc rc aw sw ec ck tl df cb].
    cbn in Hw, Hnd |- *. rewrite IH.
    + cbn. rewrite <- !app_assoc, seq_app, Nat.add_assoc. reflexivity.
    + cbn. rewrite map_app, app_assoc. cbn.
      apply Permutation_NoDup with (l := w :: waiting ++ map fst cb).
      * apply Permutation_cons_append.
      * apply NoDup_cons; assumption.
Qed.

Lemma count_occ_seq (a n d : nat) :
  count_occ Nat.eq_dec (seq a n) d <= 1
  /\ (d < a \/ a + n <= d -> count_occ Nat.eq_dec (seq a n) d = 0).
Proof.
  split.
  - apply (NoDup_count_occ Nat.eq_dec). apply seq_NoDup.
  - intros H. apply (count_occ_not_In Nat.eq_dec). rewrite in_seq. lia.
Qed.

(** C8. [_unawait] empties the registry before it fires a Deferred.  With
    waiters whose callbacks register [n w] new waiters each, on an instance
    with distinct Deferreds: the call does not raise; it fires the waiters
    that were registered before, in their order of registration and with
    [value]; the waiters registered meanwhile are the registry afterwards,
    none of them has fired, and the next [_unawait] fires them, in order,
    with its own value. *)
Theorem unawait_drains_first (n : nat -> nat) (value : Result)
    (self : _ClientMachine) :
  distinct_deferreds self ->
  exists self' : _ClientMachine,
    _unawait (callback_registering n) value self = Some self'
    /\ callbacks self'
       = callbacks self ++ firings value (_awaitingConnected self)
    /\ _awaitingConnected self'
       = seq (deferreds self) (list_sum (map n (_awaitingConnected self)))
    /\ (forall d, In d (_awaitingConnected self') ->
                  called d self' = false /\ ~ In d (_awaitingConnected self))
    /\ distinct_deferreds self'
    /\ forall value' : Result,
         exists self'' : _ClientMachine,
           _unawait callback value' self' = Some self''
           /\ _awaitingConnected self'' = []
           /\ callbacks self''
              = callbacks self' ++ firings value' (_awaitingConnected self').
Proof.
  intros Hd. unfold distinct_deferreds in Hd.
  destruct self as [s fa pol cip cc rc aw sw ec ck tl df cb].
  cbn in Hd. unfold _unawait. cbn.
  rewrite for_each_callback_registering by (cbn; distinct Hd).
  eexists. split; [reflexivity|]. cbn.
  split; [reflexivity|]. split; [reflexivity|].
  assert (distinct_deferreds
    {| state := s; _failedAttempts := fa; _timeoutForAttempt := pol;
       _connectionInProgress := cip; _currentConnection := cc;
       _retryCall := rc;
       _awaitingConnected := seq df (list_sum (map n aw));
       _stopWaiters := sw; endpoint_connects := ec; clock_calls := ck;
       transport_loseConnection := tl;
       deferreds := df + list_sum (map n aw);
       callbacks := cb ++ firings value aw |}) as Hd'.
  { intros d. cbn. specialize (Hd d).
    destruct (count_occ_seq df (list_sum (map n aw)) d) as [Hle Hzero].
    destruct (Nat.lt_ge_cases d df) as [Hlt|Hge].
    - rewrite count_occ_app, (Hzero (or_introl Hlt)).
      split; [|intros ?]; occurrences_in Hd.
    - destruct Hd as [_ Hd]. specialize (Hd Hge).
      rewrite count_occ_app. rewrite !count_occ_app in Hd.
      rewrite map_app, map_fst_firings, !count_occ_app.
      split; [lia|]. intros Hbig. rewrite Hzero by lia. lia. }
  split; [|split; [exact Hd'|]].
  - intros d Hin. apply in_seq in Hin. destruct Hin as [Hge _].
    specialize (Hd d). destruct Hd as [_ Hd]. specialize (Hd Hge).
    rewrite !count_occ_app in Hd. split.
    + apply not_called_of_count. cbn.
      rewrite map_app, map_fst_firings, count_occ_app. lia.
    + apply (count_occ_not_In Nat.eq_dec). lia.
  - intros value'. unfold distinct_deferreds in Hd'. cbn in Hd'.
    rewrite for_each_callback by (cbn; distinct Hd').
    eexists. split; [reflexivity|]. cbn. split; reflexivity.
Qed.

(** ** The proxy's [connectionLost] *)

Section ProxyFacts.

Variables Reason Value Exn World : Type.

(** C4, as amended.  For every wrapped protocol, callback, reason and world:
    the proxy first calls the wrapped protocol's [connectionLost] with the
    reason, then the callback, once, with the same reason, in the world the
    protocol left; when the callback returns, the outcome is the wrapped
    protocol's own (its result, or its exception), and when the callback
    raises, its exception. *)
Theorem connectionLost_relays_then_notifies
    (self : Proxy._ReconnectingProtocolProxy
              (Proxy.IProtocol Reason Value Exn World)
              (Proxy.Notification Reason Exn World))
    (reason : Reason) (w : World) :
  exists (w1 w2 : World) (body : Proxy.Outcome Exn Value)
         (final : Proxy.Outcome Exn unit),
    Proxy.connectionLost_of (Proxy._protocol self) reason w = (w1, body)
    /\ Proxy._lostNotification self reason w1 = (w2, final)
    /\ Proxy.connectionLost self reason w
       = (w2,
          [Proxy.protocol_connectionLost reason;
           Proxy.lostNotification reason],
          match final with
          | Proxy.Returned _ _ => body
          | Proxy.Raised _ e => Proxy.Raised _ e
          end)
    /\ Proxy.propagates_before_notifying
         (snd (fst (Proxy.connectionLost self reason w))).
Proof.
  unfold Proxy.connectionLost.
  destruct (Proxy.connectionLost_of (Proxy._protocol self) reason w)
    as [w1 body].
  destruct (Proxy._lostNotification self reason w1) as [w2 final] eqn:E.
  exists w1, w2, body, final. repeat split; auto.
  - destruct final; reflexivity.
  - exists reason, reason, [], [], []. destruct final; reflexivity.
Qed.

End ProxyFacts.

(** C4, as stated, fails: closing the proxy of [noting_protocol] with reason 5
    calls the wrapped protocol first and the callback second, as the calls and
    the notes in the world show; the callback is not invoked before the close
    is propagated. *)
Lemma connectionLost_notifies_first_counterexample :
  Proxy.connectionLost noting_proxy 5 []
  = ([1; 2],
     [Proxy.protocol_connectionLost 5; Proxy.lostNotification 5],
     Proxy.Returned unit 0)
  /\ ~ Proxy.notifies_before_propagating
         (snd (fst (Proxy.connectionLost noting_proxy 5 []))).
Proof.
  split; [reflexivity|]. cbn.
  intros [r [r' [a [b [c H]]]]].
  destruct a as [|x [|y a]]; cbn in H.
  - discriminate H.
  - injection H as _ _ H. destruct b; discriminate H.
  - injection H as _ _ H. destruct a; discriminate H.
Qed.

(* ===================================================================== *)
(** * The properties at work on the example instances *)
(* ===================================================================== *)

Lemma reachable_after (inputs : list Input) (self : _ClientMachine) :
  run inputs (__init__ steady_policy) = Some self -> reachable self.
Proof.
  apply run_reachable. apply reachable_init.
Qed.

(** Each of the eight states is the state of a reachable instance. *)
Lemma every_state_reachable (s : State) :
  exists self : _ClientMachine, reachable self /\ state self = s.
Proof.
  destruct s.
  - exists (after []). split; [apply (reachable_after [])|]; reflexivity.
  - exists (after [startAndFailTheFirstTime]).
    split; [apply (reachable_after [startAndFailTheFirstTime])|];
      reflexivity.
  - exists (after [start]).
    split; [apply (reachable_after [start])|]; reflexivity.
  - exists waiting_without_retry.
    split; [apply (reachable_after
                     [start; _connectionFailed (ConnectError 1)])|];
      reflexivity.
  - exists connected_to_7.
    split; [apply (reachable_after
                     [whenConnected; start; _connectionMade (proxy_of 7)])|];
      reflexivity.
  - exists closing_7.
    split; [apply (reachable_after
                     [start; _connectionMade (proxy_of 7); stop])|];
      reflexivity.
  - exists (after [start; _connectionMade (proxy_of 7); stop; start]).
    split; [apply (reachable_after
                     [start; _connectionMade (proxy_of 7); stop; start])|];
      reflexivity.
  - exists (after [stop]).
    split; [apply (reachable_after [stop])|]; reflexivity.
Qed.

Lemma reachable_closing_7 : reachable closing_7.
Proof.
  apply (reachable_after [start; _connectionMade (proxy_of 7); stop]).
  reflexivity.
Qed.

Lemma reachable_connected_to_7 : reachable connected_to_7.
Proof.
  apply (reachable_after
           [whenConnected; start; _connectionMade (proxy_of 7)]).
  reflexivity.
Qed.

Lemma reachable_two_waiters : reachable two_waiters.
Proof.
  apply (reachable_after [whenConnected; whenConnected; start]).
  reflexivity.
Qed.

Lemma reachable_waiting_to_retry : reachable waiting_to_retry.
Proof.
  apply (reachable_after
           [start; _connectionMade (proxy_of 7); _clientDisconnected]).
  reflexivity.
Qed.

Lemma reachable_waiting_without_retry : reachable waiting_without_retry.
Proof.
  apply (reachable_after [start; _connectionFailed (ConnectError 1)]).
  reflexivity.
Qed.

(** The loss of the connection to protocol 7 is the first failed attempt:
    the counter goes from 0 to 1. *)
Lemma failedAttempts_never_decrease_witness :
  reachable connected_to_7
  /\ doInput _clientDisconnected connected_to_7
     = Some (after [whenConnected; start; _connectionMade (proxy_of 7);
                    _clientDisconnected],
             results [PyNone; PyNone])
  /\ _failedAttempts
       (after [whenConnected; start; _connectionMade (proxy_of 7);
               _clientDisconnected]) = 1
  /\ _failedAttempts connected_to_7
     <= _failedAttempts
          (after [whenConnected; start; _connectionMade (proxy_of 7);
                  _clientDisconnected])
  /\ _failedAttempts
       (after [whenConnected; start; _connectionMade (proxy_of 7);
               _clientDisconnected])
     <= _failedAttempts connected_to_7 + 1.
Proof.
  assert (doInput _clientDisconnected connected_to_7
          = Some (after [whenConnected; start; _connectionMade (proxy_of 7);
                         _clientDisconnected],
                  results [PyNone; PyNone])) as H by reflexivity.
  split; [exact reachable_connected_to_7|]. split; [exact H|].
  split; [reflexivity|].
  exact (failedAttempts_never_decrease _ _ _clientDisconnected _
           reachable_connected_to_7 H).
Defined.

(** A failed attempt raises in [_wait1] and leaves the counter as it is. *)
Lemma failed_attempt_is_not_counted :
  doInput (_connectionFailed (ConnectError 1)) (after [start])
  = Some (waiting_without_retry, raised AttributeError)
  /\ _failedAttempts waiting_without_retry = 0
  /\ clock_calls waiting_without_retry = [].
Proof. repeat split. Qed.

(** C3, as stated, fails: after [start], a successful connection to protocol
    7 and [stop], the machine is in [_disconnecting] and the current
    connection is still protocol 7, whose transport was asked to close. *)
Lemma currentConnection_iff_connected_counterexample :
  run [start; _connectionMade (proxy_of 7); stop] (__init__ steady_policy)
  = Some closing_7
  /\ state closing_7 = _disconnecting
  /\ _currentConnection closing_7 = Some 7
  /\ transport_loseConnection closing_7 = [7]
  /\ ~ (forall self : _ClientMachine,
          reachable self ->
          (_currentConnection self <> None <-> state self = _connected)).
Proof.
  repeat (split; [reflexivity|]).
  intros Hclaim.
  destruct (Hclaim closing_7 reachable_closing_7) as [Hset _].
  assert (state closing_7 = _connected) as E
    by (apply Hset; discriminate).
  discriminate E.
Qed.

(** Outside the amended claim: [_restarting.upon(_clientDisconnected)] has
    no [_forgetConnection], unlike the transitions of [_connected] and
    [_disconnecting] on the same input, and the closed connection stays the
    current one while the machine connects again. *)
Lemma restart_keeps_the_closed_connection :
  run [start; _connectionMade (proxy_of 7); stop; start; _clientDisconnected]
    (__init__ steady_policy)
  = Some (after [start; _connectionMade (proxy_of 7); stop; start;
                 _clientDisconnected])
  /\ state (after [start; _connectionMade (proxy_of 7); stop; start;
                   _clientDisconnected]) = _connecting
  /\ _currentConnection
       (after [start; _connectionMade (proxy_of 7); stop; start;
               _clientDisconnected]) = Some 7.
Proof. repeat split. Qed.

Lemma currentConnection_by_state_witness :
  reachable closing_7
  /\ (state closing_7 = _connected \/ state closing_7 = _disconnecting
      \/ state closing_7 = _restarting ->
      exists p, _currentConnection closing_7 = Some p)
  /\ (state closing_7 = _init \/ state closing_7 = _connecting_first_time ->
      _currentConnection closing_7 = None).
Proof.
  split; [exact reachable_closing_7|].
  exact (currentConnection_by_state closing_7 reachable_closing_7).
Defined.

(** After the loss of the connection to protocol 7: one retry call pending,
    no connect operation in flight. *)
Lemma single_attempt_single_timer_witness :
  reachable waiting_to_retry
  /\ in_flight waiting_to_retry = 0
  /\ pending_calls waiting_to_retry = 1
  /\ in_flight waiting_to_retry <= 1
  /\ pending_calls waiting_to_retry <= 1
  /\ (in_flight waiting_to_retry = 1
      <-> attempting (state waiting_to_retry) = true)
  /\ (pending_calls waiting_to_retry = 1 -> state waiting_to_retry = _waiting).
Proof.
  split; [exact reachable_waiting_to_retry|].
  split; [reflexivity|]. split; [reflexivity|].
  destruct (single_attempt_single_timer waiting_to_retry
              reachable_waiting_to_retry)
    as [H1 [H2 [H3 [H4 _]]]].
  repeat split; solve [apply H1 | apply H2 | apply H3 | apply H4].
Defined.

Lemma whenConnected_by_state_witness :
  reachable connected_to_7
  /\ exists (self' : _ClientMachine) (d : nat),
       doInput whenConnected connected_to_7
       = Some (self', result (ADeferred d))
       /\ state self' = _connected
       /\ d = 1
       /\ callbacks self' = [(0, RProtocol 7); (1, RProtocol 7)].
Proof.
  split; [exact reachable_connected_to_7|].
  destruct (whenConnected_by_state connected_to_7 reachable_connected_to_7)
    as [self' [d [H [Hs [Hd [_ [p [Hp [Hcb _]]]]]]]]].
  exists self', d. split; [exact H|]. split; [exact Hs|]. split; [exact Hd|].
  injection Hp as <-. rewrite Hd in Hcb. exact Hcb.
Defined.

Lemma first_failure_stops_witness :
  reachable first_attempt
  /\ state first_attempt = _connecting_first_time
  /\ exists self' : _ClientMachine,
       doInput (_connectionFailed (ConnectError 1)) first_attempt
       = Some (self', results [PyNone])
       /\ state self' = _stopped
       /\ clock_calls self' = []
       /\ callbacks self'
          = [(0, RFailure (ConnectError 1)); (1, RFailure (ConnectError 1))].
Proof.
  assert (reachable first_attempt) as Hr
    by (apply (reachable_after
                 [whenConnected; startAndFailTheFirstTime; whenConnected]);
        reflexivity).
  split; [exact Hr|]. split; [reflexivity|].
  destruct (first_failure_stops first_attempt (ConnectError 1) Hr eq_refl)
    as [self' [H [Hs [Hc [_ [_ [_ [Hcb _]]]]]]]].
  exists self'. repeat (split; [assumption|]). exact Hcb.
Defined.

(** [start], [stop], [stop], with two waiters registered before: the first
    completion signal, Deferred 2, waits in the stopped machine; the second,
    Deferred 3, has fired; the two waiters, Deferreds 0 and 1, are still
    registered. *)
Lemma stop_while_connecting_never_completes_witness :
  reachable two_waiters
  /\ attempting (state two_waiters) = true
  /\ exists self2 : _ClientMachine,
       run [stop; stop] two_waiters = Some self2
       /\ state self2 = _stopped
       /\ _stopWaiters self2 = [2]
       /\ callbacks self2 = [(3, RNone)]
       /\ _awaitingConnected self2 = [0; 1]
       /\ called 2 self2 = false.
Proof.
  split; [exact reachable_two_waiters|]. split; [reflexivity|].
  destruct (stop_while_connecting_never_completes two_waiters
              reachable_two_waiters eq_refl)
    as [self1 [d1 [self2 [d2 [H1 [H2 _]]]]]].
  exists self2. cbn [run]. rewrite H1, H2.
  injection H1 as <- <-. injection H2 as <- <-.
  repeat split.
Defined.

Lemma unawait_drains_first_witness :
  distinct_deferreds two_waiters
  /\ exists self' : _ClientMachine,
       _unawait (callback_registering (fun _ => 1)) (RProtocol 7) two_waiters
       = Some self'
       /\ callbacks self' = [(0, RProtocol 7); (1, RProtocol 7)]
       /\ _awaitingConnected self' = [2; 3].
Proof.
  assert (distinct_deferreds two_waiters) as Hd.
  { intros d. destruct d as [|[|d]]; cbn; lia. }
  split; [exact Hd|].
  destruct (unawait_drains_first (fun _ => 1) (RProtocol 7) two_waiters Hd)
    as [self' [H [Hcb [Haw _]]]].
  exists self'. auto.
Defined.

(** The same with callbacks that call inputs: each of the two waiters, when
    it fires, calls [stop] and then [whenConnected].  The first [stop] moves
    the machine to [_disconnecting], where [whenConnected] registers; the two
    waiters registered meanwhile (3 and 5) are not fired by this [_unawait],
    which fires the two it found (0 and 1), in order. *)
Lemma unawait_with_callbacks_calling_inputs :
  exists self' : _ClientMachine,
    _unawait (callback_calling (fun _ => [stop; whenConnected]))
      (RProtocol 7) notifying_7 = Some self'
    /\ state self' = _disconnecting
    /\ callbacks self' = [(0, RProtocol 7); (1, RProtocol 7)]
    /\ _awaitingConnected self' = [3; 5]
    /\ _stopWaiters self' = [2; 4].
Proof. eexists. repeat split. Qed.

Lemma consumers_get_the_wrapped_protocol_witness :
  reachable two_waiters
  /\ attempting (state two_waiters) = true
  /\ exists self1 : _ClientMachine,
       doInput (_connectionMade (proxy_of 7)) two_waiters
       = Some (self1, results [PyNone])
       /\ _currentConnection self1 = Some 7
       /\ callbacks self1 = [(0, RProtocol 7); (1, RProtocol 7)].
Proof.
  split; [exact reachable_two_waiters|]. split; [reflexivity|].
  destruct (consumers_get_the_wrapped_protocol two_waiters (fun _ => 7) 0
              reachable_two_waiters eq_refl)
    as [self1 [H [_ [Hp [Hcb _]]]]].
  exists self1. auto.
Defined.

(* ===================================================================== *)
(** * Further properties of the machine *)
(* ===================================================================== *)

(** ** Which inputs raise *)

(** X1. The three inputs of the owner of the machine have a transition in
    each state.  [start] and [whenConnected] never raise on a reachable
    instance.  [stop] raises exactly when the machine waits with no retry
    call pending, as after a failed attempt, whose output [_wait1] schedules
    none: [_stopRetrying] then finds no call to cancel.  The machine is
    stopped all the same, the waiters of [whenConnected] are cancelled, and
    the completion signal that [_waitForStop] made is left waiting. *)
Theorem stop_raises_without_retry_call (self : _ClientMachine) :
  reachable self ->
  (forall i : Input, i = start \/ i = whenConnected ->
     exists (self' : _ClientMachine) (r : Returned),
       doInput i self = Some (self', r) /\ forall e, r <> raised e)
  /\ exists (self' : _ClientMachine) (r : Returned),
       doInput stop self = Some (self', r)
       /\ ((exists e, r = raised e)
           <-> state self = _waiting /\ pending_calls self = 0)
       /\ ((exists e, r = raised e) ->
           state self' = _stopped
           /\ in_flight self' = 0 /\ pending_calls self' = 0
           /\ _awaitingConnected self' = []
           /\ _stopWaiters self' = _stopWaiters self ++ [deferreds self]
           /\ called (deferreds self) self' = false).
Proof.
  intros Hr. apply reachable_consistent in Hr. split.
  - intros i [-> | ->].
    + run_input start self Hr Hd.
      all: do 2 eexists; split; [reflexivity|]; discriminate.
    + run_input whenConnected self Hr Hd.
      all: do 2 eexists; split; [reflexivity|]; discriminate.
  - run_input stop self Hr Hd.
    all: do 2 eexists; split; [reflexivity|].
    all: split;
      [ split;
        [ intros [e He];
          first [ discriminate He
                | split; [reflexivity | count_pending; reflexivity] ]
        | intros [Hw Hp];
          first [ discriminate Hw
                | eexists; reflexivity
                | exfalso; revert Hp; count_pending; discriminate ] ]
      | intros [e He]; try discriminate He ].
    all: repeat (split; [first [reflexivity | count_pending; reflexivity]|]).
    all: not_called Hd.
Qed.

(** X2. [startAndFailTheFirstTime] is accepted in [_init] only: in the seven
    other states it raises [NoTransition]. *)
Theorem startAndFailTheFirstTime_only_in_init (self : _ClientMachine) :
  reachable self ->
  (doInput startAndFailTheFirstTime self = None <-> state self <> _init).
Proof.
  intros _. rewrite (NoTransition_by_state self _).
  destruct (state self); cbn; split; intros H; congruence.
Qed.


(** X5. Where an input of a reachable instance raises in an output: the
    failure of a connection attempt, in [_connecting] ([_wait1]) and in
    [_disconnecting] ([_cancelConnectWaiters1]), and [stop] in [_waiting]
    with no retry call pending ([_stopRetrying]); nowhere else.  No Deferred
    is fired a second time, and [_firstResult] always finds a first
    result. *)
Theorem raises_by_state (self self' : _ClientMachine) (i : Input)
    (r : Returned) :
  reachable self -> doInput i self = Some (self', r) ->
  ((exists e, r = raised e)
   <-> (state self = _connecting \/ state self = _disconnecting)
       /\ (exists f, i = _connectionFailed f)
       \/ state self = _waiting /\ i = stop /\ pending_calls self = 0)
  /\ r <> raised AlreadyCalledError /\ r <> raised IndexError.
Proof.
  intros Hr. apply reachable_consistent in Hr. revert Hr.
  open_instance self Hd. intros H. by_cases H Hd; cbn.
  all: split; [|split; discriminate].
  all: split;
    [ intros [e He];
      first [ discriminate He
            | left; split; [auto | eexists; reflexivity]
            | right; split; [reflexivity|]; split; [reflexivity|];
              count_pending; reflexivity ]
    | intros [[[Hw|Hw] [f' Hf']]|[Hw [Hi Hp]]];
      first [ discriminate
            | eexists; reflexivity
            | exfalso; revert Hp; count_pending; discriminate ] ].
Qed.

(** ** Failed attempts *)

(** X7. A connection attempt that fails in [_connecting] is not retried:
    the input raises [AttributeError], since [_wait1] reads the output
    [_wait] off the instance; the machine is left in [_waiting] with the
    failure not counted, no retry call scheduled, no connect operation in
    flight, and the waiters as they were: nothing is left to wake it up. *)
Theorem failed_attempt_is_not_retried (self : _ClientMachine) (f : Failure) :
  reachable self -> state self = _connecting ->
  exists self' : _ClientMachine,
    doInput (_connectionFailed f) self = Some (self', raised AttributeError)
    /\ state self' = _waiting
    /\ _failedAttempts self' = _failedAttempts self
    /\ clock_calls self' = clock_calls self
    /\ pending_calls self' = 0
    /\ in_flight self' = 0
    /\ _awaitingConnected self' = _awaitingConnected self
    /\ callbacks self' = callbacks self.
Proof.
  intros Hr Hstate. apply reachable_consistent in Hr.
  run_input (_connectionFailed f) self Hr Hd.
  eexists. repeat (split; [reflexivity|]).
  split; [count_pending; reflexivity|].
  split; [count_pending; reflexivity|]. split; reflexivity.
Qed.

(** The policy is an attribute no input assigns, and every retry call so far
    was scheduled with the delay it gives for 1. *)
Lemma first_delay_step (self self' : _ClientMachine) (i : Input)
    (r : Returned) :
  consistent self ->
  (forall c, In c (clock_calls self) -> fst c = _timeoutForAttempt self 1) ->
  doInput i self = Some (self', r) ->
  _timeoutForAttempt self' = _timeoutForAttempt self
  /\ forall c, In c (clock_calls self') -> fst c = _timeoutForAttempt self' 1.
Proof.
  open_instance self Hd. intros Hall H. by_cases H Hd; cbn in *.
  all: split; [reflexivity|]; try exact Hall.
  all: intros c Hin; apply in_app_or in Hin; cbn in Hin.
  all: destruct Hin as [Hin|[<-|[]]].
  all: try (apply Hall; first [exact Hin | apply in_or_app; left; exact Hin]).
  all: try reflexivity.
  all: match goal with
       | |- fst (?delay, _) = _ =>
           apply (Hall (delay, Pending)); apply in_or_app; right; left;
           reflexivity
       end.
Qed.

(** X6. The backoff never takes place: a reachable instance has counted at
    most one failed attempt, and every retry call it has scheduled has the
    delay the policy gives for 1.  [_wait], the only output that counts and
    schedules, runs when an established connection is lost, where the count
    is 0; a failed attempt runs [_wait1], which raises. *)
Theorem every_retry_call_has_the_first_delay (self : _ClientMachine) :
  reachable self ->
  _failedAttempts self <= 1
  /\ forall (delay : Q) (status : CallStatus),
       In (delay, status) (clock_calls self) ->
       delay = _timeoutForAttempt self 1.
Proof.
  intros Hr. split.
  - apply reachable_consistent in Hr. destruct Hr as [_ _ _ Hf _ _].
    destruct (state self); lia.
  - assert (forall c, In c (clock_calls self) ->
                      fst c = _timeoutForAttempt self 1) as Hall.
    { induction Hr as [retryPolicy | self self' i r Hr IH H].
      - intros c [].
      - apply (first_delay_step self self' i r); auto.
        apply reachable_consistent. exact Hr. }
    intros delay status Hin. exact (Hall _ Hin).
Qed.

(** ** Stopping *)

(** Before the first [start] no connect operation was issued. *)
Lemma never_started_step (self self' : _ClientMachine) (i : Input)
    (r : Returned) :
  consistent self ->
  (state self = _init -> endpoint_connects self = []) ->
  doInput i self = Some (self', r) ->
  state self' = _init -> endpoint_connects self' = [].
Proof.
  open_instance self Hd. intros Hinit H.
  by_cases H Hd; cbn; intros Hstate; try discriminate Hstate; auto.
Qed.

Lemma never_started (self : _ClientMachine) :
  reachable self -> state self = _init -> endpoint_connects self = [].
Proof.
  induction 1 as [retryPolicy | self self' i r Hr IH H].
  - reflexivity.
  - apply (never_started_step self self' i r); auto.
    apply reachable_consistent. exact Hr.
Qed.

(** X10. [stop] in [_init] stops the machine and leaves the registry as it
    is: the Deferred returned has fired with [None], and no waiter fires. *)
Theorem stop_before_start_keeps_waiters (self : _ClientMachine) :
  reachable self -> state self = _init ->
  exists self' : _ClientMachine,
    doInput stop self = Some (self', result (ADeferred (deferreds self)))
    /\ state self' = _stopped
    /\ _awaitingConnected self' = _awaitingConnected self
    /\ callbacks self' = callbacks self ++ [(deferreds self, RNone)]
    /\ endpoint_connects self' = [].
Proof.
  intros Hr Hstate. pose proof (never_started self Hr Hstate) as Hnone.
  apply reachable_consistent in Hr.
  run_input stop self Hr Hd.
  eexists. repeat split.
Qed.

(** X11. [stop] while a connection attempt is under way cancels it, and the
    machine is stopped when [stop] returns: the connect operation in flight
    is the one cancelled, none is in flight afterwards and no retry call is
    pending.  No Deferred fires: the errback of the cancelled attempt raises
    in [_cancelConnectWaiters1], so the waiters of [whenConnected] stay
    registered, neither served nor cancelled, and the Deferred returned
    waits in [_stopWaiters]. *)
Theorem stop_cancels_the_attempt (self : _ClientMachine) :
  reachable self -> attempting (state self) = true ->
  exists (self' : _ClientMachine) (a : list AttemptStatus),
    doInput stop self = Some (self', result (ADeferred (deferreds self)))
    /\ state self' = _stopped
    /\ endpoint_connects self = a ++ [InFlight]
    /\ endpoint_connects self' = a ++ [Cancelled]
    /\ in_flight self' = 0
    /\ pending_calls self' = 0
    /\ clock_calls self' = clock_calls self
    /\ _awaitingConnected self' = _awaitingConnected self
    /\ _stopWaiters self' = _stopWaiters self ++ [deferreds self]
    /\ callbacks self' = callbacks self.
Proof.
  intros Hr Hstate. apply reachable_consistent in Hr.
  run_input stop self Hr Hd.
  all: do 2 eexists; repeat (split; [reflexivity|]).
  all: split; [count_pending; reflexivity|].
  all: split; [count_pending; reflexivity|].
  all: repeat split.
Qed.

(** X12. [stop] while a retry call is pending cancels it and stops the
    machine: no call is pending afterwards, so the retry never runs
    ([_reconnect] would raise [NoTransition]), no connect operation is
    issued, every waiter of [whenConnected] fires with
    [Failure(CancelledError())], and the Deferred returned has fired with
    [None]. *)
Theorem stop_cancels_the_retry_call (self : _ClientMachine) :
  reachable self -> pending_calls self = 1 ->
  exists (self' : _ClientMachine) (a : list (Q * CallStatus)) (delay : Q),
    doInput stop self = Some (self', result (ADeferred (deferreds self)))
    /\ state self = _waiting
    /\ state self' = _stopped
    /\ clock_calls self = a ++ [(delay, Pending)]
    /\ clock_calls self' = a ++ [(delay, CallCancelled)]
    /\ _retryCall self' = None
    /\ pending_calls self' = 0
    /\ endpoint_connects self' = endpoint_connects self
    /\ doInput _reconnect self' = None
    /\ _awaitingConnected self' = []
    /\ _stopWaiters self' = []
    /\ fired_once (deferreds self) RNone self'
    /\ forall w, In w (_awaitingConnected self) ->
                 fired_once w (RFailure CancelledError) self'.
Proof.
  intros Hr Hpend. apply reachable_consistent in Hr.
  pose proof (proj2 (proj2 (consistent_counts self Hr)) Hpend) as Hstate.
  run_input stop self Hr Hd.
  all: try (exfalso; revert Hpend; count_pending; discriminate).
  do 3 eexists. repeat (split; [reflexivity|]).
  split; [count_pending; reflexivity|]. repeat (split; [reflexivity|]).
  split; [fired Hd|]. cbn.
  intros w Hw. pose proof (proj1 (count_occ_In Nat.eq_dec _ _) Hw) as Hw'.
  fired Hd.
Qed.

(** ** Losing the connection *)

(** X13. When the connection of a connected machine is lost, the machine
    forgets it and waits to retry: this is the first failed attempt, the
    retry call is scheduled with the delay the policy gives for 1, the
    waiters' registry is untouched; and when the call runs, the machine
    issues one new connect operation. *)
Theorem lost_connection_is_retried (self : _ClientMachine) :
  reachable self -> state self = _connected ->
  exists self1 self2 : _ClientMachine,
    doInput _clientDisconnected self = Some (self1, results [PyNone; PyNone])
    /\ state self1 = _waiting
    /\ _currentConnection self1 = None
    /\ _failedAttempts self1 = 1
    /\ clock_calls self1
       = clock_calls self ++ [(_timeoutForAttempt self 1, Pending)]
    /\ endpoint_connects self1 = endpoint_connects self
    /\ callbacks self1 = callbacks self
    /\ doInput _reconnect self1 = Some (self2, results [PyNone])
    /\ state self2 = _connecting
    /\ clock_calls self2
       = clock_calls self ++ [(_timeoutForAttempt self 1, Called)]
    /\ endpoint_connects self2 = endpoint_connects self ++ [InFlight]
    /\ in_flight self2 = 1.
Proof.
  intros Hr Hstate. apply reachable_consistent in Hr.
  unfold in_flight.
  run_input _clientDisconnected self Hr Hd.
  do 2 eexists. repeat (split; [reflexivity|]).
  unfold doInput, doInput_with. cbn.
  rewrite nth_error_last, update_last. cbn.
  repeat (split; [reflexivity|]). filters.
Qed.

(** X14. A [start] while the machine is disconnecting turns the shutdown
    into a restart: when the connection is lost, the completion signals of
    the [stop] calls fire with [None], the waiters stay registered and are
    not cancelled, and one new connect operation is issued, with no failed
    attempt counted. *)
Theorem restart_keeps_the_waiters (self : _ClientMachine) :
  reachable self -> state self = _restarting ->
  exists self' : _ClientMachine,
    doInput _clientDisconnected self = Some (self', results [PyNone; PyNone])
    /\ state self' = _connecting
    /\ _awaitingConnected self' = _awaitingConnected self
    /\ _stopWaiters self' = []
    /\ callbacks self' = callbacks self ++ firings RNone (_stopWaiters self)
    /\ endpoint_connects self' = endpoint_connects self ++ [InFlight]
    /\ in_flight self' = 1
    /\ _failedAttempts self' = 0.
Proof.
  intros Hr Hstate. apply reachable_consistent in Hr.
  unfold in_flight.
  run_input _clientDisconnected self Hr Hd.
  eexists. repeat (split; [reflexivity|]). cbn.
  split; [filters|reflexivity].
Qed.

(** ** The Deferreds the machine hands out *)

(** X15. No Deferred of a reachable instance has fired twice, every Deferred
    that has fired is one the machine created, and none that has fired is
    still among the waiters of [whenConnected] or of [stop]. *)
Theorem deferreds_fire_once (self : _ClientMachine) :
  reachable self ->
  NoDup (map fst (callbacks self))
  /\ forall d value, In (d, value) (callbacks self) ->
       d < deferreds self
       /\ ~ In d (_awaitingConnected self)
       /\ ~ In d (_stopWaiters self).
Proof.
  intros Hr. apply reachable_consistent in Hr.
  destruct Hr as [_ _ _ _ _ Hd]. unfold distinct_deferreds in Hd. split.
  - apply distinct_of_occurrences. intros d. specialize (Hd d).
    rewrite !count_occ_app in Hd. lia.
  - intros d value Hin.
    assert (In d (map fst (callbacks self))) as Hfst
      by (apply in_map_iff; exists (d, value); auto).
    apply (count_occ_In Nat.eq_dec) in Hfst.
    specialize (Hd d). rewrite !count_occ_app in Hd.
    destruct Hd as [Hle Hfresh]. split; [|split].
    + destruct (Nat.lt_ge_cases d (deferreds self)) as [Hlt|Hge];
        [exact Hlt|]. specialize (Hfresh Hge). lia.
    + apply (count_occ_not_In Nat.eq_dec). lia.
    + apply (count_occ_not_In Nat.eq_dec). lia.
Qed.

(** X16. The machine drops no waiter: whatever the input, and whether it
    raises or not, a Deferred that waited for a connection before it waits
    for one still or has fired, and a completion signal that waited before
    it waits still or has fired with [None]. *)
Theorem no_waiter_is_dropped (self self' : _ClientMachine) (i : Input)
    (r : Returned) :
  reachable self -> doInput i self = Some (self', r) ->
  (forall w, In w (_awaitingConnected self) ->
     In w (_awaitingConnected self')
     \/ exists value, In (w, value) (callbacks self'))
  /\ (forall w, In w (_stopWaiters self) ->
        In w (_stopWaiters self') \/ In (w, RNone) (callbacks self')).
Proof.
  intros Hr. apply reachable_consistent in Hr. revert Hr.
  open_instance self Hd. intros H. by_cases H Hd; cbn.
  all: split; intros w Hw; rewrite ?in_app_iff;
    solve [ auto
          | contradiction
          | right; rewrite ?in_app_iff;
            auto 8 using in_firings, in_or_app
          | right; eexists; rewrite ?in_app_iff;
            eauto 8 using in_firings, in_or_app ].
Qed.

(** ** The service *)

Lemma service_machine_reachable (self : ClientService) :
  service_reachable self -> reachable (_machine self).
Proof.
  induction 1 as [jitter retryPolicy | self self' e Hr IH H].
  - apply reachable_init.
  - destruct e; cbn in H; unfold startService, stopService,
      service_whenConnected, deliver in H; cbn in H.
    1: destruct (running self); [injection H as <-; exact IH|].
    all: match type of H with
         | context [doInput ?i ?m] =>
             destruct (doInput i m) as [[machine r]|] eqn:E;
             [|discriminate H]
         end.
    all: cbn in H; injection H as <-; cbn.
    all: exact (reachable_input _ _ _ _ IH E).
Qed.

Lemma flag_matches_state_step (self self' : ClientService) (e : Event) :
  consistent (_machine self) -> flag_matches_state self ->
  happen e self = Some self' -> flag_matches_state self'.
Proof.
  destruct self as [flag machine w]. unfold flag_matches_state. cbn.
  intros Hcons Hflag H.
  destruct e; cbn in H; unfold startService, stopService,
    service_whenConnected, deliver in H; cbn in H.
  1: destruct flag; [injection H as <-; exact Hflag|].
  all: match type of H with
       | context [doInput ?i ?m] =>
           destruct (doInput i m) as [[machine' r]|] eqn:E;
           [|discriminate H]
       end.
  all: cbn in H; injection H as <-; cbn.
  all: revert Hcons Hflag E; open_instance machine Hd; intros Hflag E.
  all: by_state E Hd; cbn; solve [auto | contradiction | discriminate].
Qed.


(** X21. The flag of the service tells the state of its machine: a running
    service is connecting, waiting to retry, connected or restarting; one
    that is not running is new, disconnecting or stopped.  No sequence of
    calls of [startService], [stopService] and [whenConnected] and of
    callbacks puts the machine in [_connecting_first_time]: the service never
    calls [startAndFailTheFirstTime]. *)
Theorem service_flag_matches_state (self : ClientService) :
  service_reachable self -> flag_matches_state self.
Proof.
  intros Hr. induction Hr as [jitter retryPolicy | self self' e Hr IH H].
  - reflexivity.
  - apply (flag_matches_state_step self self' e); [|exact IH|exact H].
    apply reachable_consistent, service_machine_reachable. exact Hr.
Qed.

(** How the inputs of the owner end on a consistent instance. *)
Lemma start_returns (self : _ClientMachine) :
  consistent self ->
  exists (self' : _ClientMachine) (values : list Value),
    doInput start self = Some (self', results values).
Proof.
  intros Hr. run_input start self Hr Hd. all: eauto.
Qed.

Lemma whenConnected_returns (self : _ClientMachine) :
  consistent self ->
  exists (self' : _ClientMachine) (d : nat),
    doInput whenConnected self = Some (self', result (ADeferred d)).
Proof.
  intros Hr. run_input whenConnected self Hr Hd. all: eauto.
Qed.

Lemma stop_ends (self : _ClientMachine) :
  consistent self ->
  exists (self' : _ClientMachine) (r : Returned),
    doInput stop self = Some (self', r)
    /\ (r = result (ADeferred (deferreds self))
        /\ ~ (state self = _waiting /\ pending_calls self = 0)
        \/ (exists e, r = raised e)
           /\ state self = _waiting /\ pending_calls self = 0).
Proof.
  intros Hr. run_input stop self Hr Hd.
  all: do 2 eexists; split; [reflexivity|].
  all: first
    [ left; split; [reflexivity|]; intros [Hw Hp];
      first [ discriminate Hw
            | revert Hp; count_pending; discriminate ]
    | right; split; [eexists; reflexivity|]; split; [reflexivity|];
      count_pending; reflexivity ].
Qed.

(** X22. [startService] and [whenConnected] never raise on a service reached
    by calls of its methods and callbacks of its collaborators.
    [stopService] clears the flag and returns the Deferred of [stop], unless
    the machine waits with no retry call pending, as after a failed
    connection attempt: then it raises, and returns no Deferred. *)
Theorem stopService_raises_without_retry_call (self : ClientService) :
  service_reachable self ->
  (exists self', startService self = Some (self', result PyNone))
  /\ (exists self' d,
        service_whenConnected self = Some (self', result (ADeferred d)))
  /\ exists (self' : ClientService) (r : Returned),
       stopService self = Some (self', r)
       /\ running self' = false
       /\ (r = result (ADeferred (deferreds (_machine self)))
           /\ ~ (state (_machine self) = _waiting
                 /\ pending_calls (_machine self) = 0)
           \/ (exists e, r = raised e)
              /\ state (_machine self) = _waiting
              /\ pending_calls (_machine self) = 0).
Proof.
  intros Hs. pose proof (service_machine_reachable self Hs) as Hr.
  pose proof (reachable_consistent _ Hr) as Hcons.
  unfold startService, stopService, service_whenConnected. cbn.
  split; [|split].
  - destruct (running self); [eauto|].
    destruct (start_returns (_machine self) Hcons) as [m [values ->]]. eauto.
  - destruct (whenConnected_returns (_machine self) Hcons) as [m [d ->]].
    eauto.
  - destruct (stop_ends (_machine self) Hcons) as [m [r [-> H]]].
    do 2 eexists. split; [reflexivity|]. split; [reflexivity|]. exact H.
Qed.


(** ** Restarting the server *)

Section ServerFacts.

Import Server.

(** The loop ends within ten iterations: with [10 - timeout] iterations
    allowed it does not run out, it sleeps one second per iteration, at most
    [10 - timeout] seconds in all, asks once more than it sleeps, and prints
    the waiting message once, if it sleeps at all from [timeout = 0]. *)
Lemma wait_for_shutdown_ends (os : OS) (fuel : nat) :
  forall timeout asked : nat,
    timeout + fuel = 10 ->
    exists (effects : list Effect) (n : nat),
      wait_for_shutdown os fuel timeout asked = Some (effects, S (asked + n))
      /\ n <= fuel
      /\ (slept effects == inject_Z (Z.of_nat n))%Q
      /\ (forall k, k < n -> path_exists os (asked + k) = true)
      /\ (n < fuel -> path_exists os (asked + n) = false)
      /\ length (filter is_waiting_message effects)
         = (if (timeout =? 0) && negb (n =? 0) then 1 else 0)
      /\ filter is_runApp effects = [].
Proof.
  induction fuel as [|fuel IH]; intros timeout asked Hsum.
  - exists [], 0. cbn [wait_for_shutdown].
    assert ((timeout <? 10) = false) as -> by (apply Nat.ltb_ge; lia).
    rewrite andb_false_r, Nat.add_0_r. cbn. rewrite andb_false_r.
    repeat split; try reflexivity; intros; lia.
  - cbn [wait_for_shutdown].
    assert ((timeout <? 10) = true) as -> by (apply Nat.ltb_lt; lia).
    rewrite andb_true_r.
    destruct (path_exists os asked) eqn:Hexists.
    + destruct (IH (timeout + 1) (S asked) ltac:(lia))
        as [effects [n [-> [Hle [Hslept [Hall [Hstop [Hmsg Hrun]]]]]]]].
      exists ((if timeout =? 0 then [print waiting_for_shutdown] else [])
              ++ sleep 1 :: effects), (S n).
      split; [f_equal; f_equal; lia|]. split; [lia|].
      split; [|split; [|split; [|split]]].
      * destruct (timeout =? 0); cbn [app slept]; rewrite Hslept;
          rewrite Nat2Z.inj_succ, <- Z.add_1_l, inject_Z_plus; reflexivity.
      * intros [|k] Hk; [now rewrite Nat.add_0_r|].
        rewrite Nat.add_succ_r, <- Nat.add_succ_l. apply Hall. lia.
      * intros Hlt. rewrite Nat.add_succ_r, <- Nat.add_succ_l.
        apply Hstop. lia.
      * rewrite filter_app, length_app. cbn [filter is_waiting_message].
        rewrite Hmsg.
        assert ((timeout + 1 =? 0) = false) as -> by (apply Nat.eqb_neq; lia).
        destruct (timeout =? 0); reflexivity.
      * rewrite filter_app. cbn. rewrite Hrun.
        destruct (timeout =? 0); reflexivity.
    + exists [], 0. rewrite Nat.add_0_r. cbn.
      rewrite andb_false_r.
      repeat split; try reflexivity; try lia; intros; try lia.
      exact Hexists.
Qed.

Lemma slept_app (effects effects' : list Effect) :
  (slept (effects ++ effects') == slept effects + slept effects')%Q.
Proof.
  induction effects as [|e effects IH]; cbn [app slept].
  - now rewrite Qplus_0_l.
  - destruct e; rewrite ?IH, ?Qplus_assoc; reflexivity.
Qed.

(** [kill_server] does not sleep, prints no waiting message and starts no
    server. *)
Lemma kill_server_effects (os : OS) :
  (slept (fst (kill_server os)) == 0)%Q
  /\ filter is_waiting_message (fst (kill_server os)) = []
  /\ filter is_runApp (fst (kill_server os)) = [].
Proof.
  unfold kill_server. destruct (open_pid_file os) as [content|].
  - destruct (int_of os content) as [pid|]; [|cbn; repeat split; reflexivity].
    destruct (kill_succeeds os pid); cbn; repeat split; reflexivity.
  - cbn. repeat split; reflexivity.
Qed.

(** X24. The wait of [restart_server] always ends, whatever the operating
    system answers: the command sleeps 10.1 seconds at most and prints the
    waiting message once at most; then it raises what [kill_server] raised,
    or returns 1, its last words being that the old server could not be shut
    down, or calls [twistd.runApp].  It calls [runApp] in this last case
    only, once, as the last thing it does. *)
Theorem restart_server_ends (os : OS) (no_daemon : bool) :
  exists (effects : list Effect) (outcome : Outcome),
    restart_server os no_daemon = Some (effects, outcome)
    /\ (slept effects <= 101 # 10)%Q
    /\ length (filter is_waiting_message effects) <= 1
    /\ (outcome = raises \/ outcome = returns_1 \/ outcome = in_runApp)
    /\ (filter is_runApp effects <> [] <-> outcome = in_runApp)
    /\ (outcome = in_runApp ->
        exists before twistd_args,
          effects = before ++ [runApp twistd_args]
          /\ filter is_runApp before = [])
    /\ (outcome = returns_1 ->
        exists before, effects = before ++ [print unable_to_shut_down]).
Proof.
  unfold restart_server.
  destruct (kill_server_effects os) as [Hk_slept [Hk_msg Hk_run]].
  destruct (kill_server os) as [killing outcome]. cbn [fst] in *.
  destruct (wait_for_shutdown_ends os 10 0 0 eq_refl)
    as [waiting [n [Hloop [Hle [Hslept [_ [_ [Hmsg Hrun]]]]]]]].
  assert (slept waiting <= 10)%Q as Hten.
  { rewrite Hslept. change 10%Q with (inject_Z (Z.of_nat 10)).
    rewrite <- Zle_Qle. apply Nat2Z.inj_le. exact Hle. }
  assert (length (filter is_waiting_message waiting) <= 1) as Hone.
  { rewrite Hmsg. destruct (_ && _); lia. }
  destruct outcome.
  3: { exists killing, raises. split; [reflexivity|].
       split; [rewrite Hk_slept; discriminate|].
       split; [rewrite Hk_msg; cbn; lia|]. split; [auto|].
       split; [rewrite Hk_run; split; [congruence | discriminate]|].
       split; discriminate. }
  all: rewrite Hloop; cbn [Nat.add];
    destruct (path_exists os (S n)); eexists; eexists;
    (split; [reflexivity|]).
  all: split;
    [ repeat rewrite ?slept_app;
      cbn [slept start_server app]; rewrite ?slept_app, ?Hk_slept;
      cbn [slept];
      rewrite Qplus_0_l, ?Qplus_0_r;
      apply Qle_trans with ((1 # 10) + 10)%Q;
      [apply Qplus_le_r; exact Hten | discriminate]
    | ].
  all: split;
    [ repeat rewrite ?filter_app, ?length_app;
      cbn [filter is_waiting_message start_server length app];
      rewrite ?filter_app, ?length_app, ?Hk_msg;
      cbn [filter is_waiting_message length app]; lia
    | ].
  all: split; [auto|].
  all: split;
    [ repeat rewrite ?filter_app;
      cbn [filter is_runApp start_server app];
      rewrite ?filter_app, ?Hk_run, ?Hrun; cbn [filter is_runApp app];
      split; intros Habs;
      solve [ reflexivity | discriminate Habs | discriminate
            | contradiction Habs; reflexivity ]
    | ].
  all: split; intros Habs; try discriminate Habs.
  all: try (eexists; reflexivity).
  all: exists ((killing ++ sleep (1 # 10) :: waiting)
               ++ [print old_server_shut_down; print starting_server]);
    eexists; split;
    [ rewrite <- !app_assoc; cbn [app start_server]; reflexivity
    | rewrite !filter_app; cbn [filter is_runApp app];
      rewrite Hk_run, Hrun; reflexivity ].
Qed.

(** The number of iterations when the pid file is there at the first [k]
    calls and gone from then on. *)
Lemma iterations_until_gone (os : OS) (k n : nat) :
  k <= 10 -> n <= 10 ->
  (forall j, j < k -> path_exists os j = true) ->
  (forall j, k <= j -> path_exists os j = false) ->
  (forall j, j < n -> path_exists os j = true) ->
  (n < 10 -> path_exists os n = false) ->
  n = k.
Proof.
  intros Hk Hn Hbefore Hafter Hloop Hstop.
  destruct (Nat.lt_trichotomy n k) as [Hlt | [Heq | Hgt]]; [|exact Heq|].
  - assert (n < 10) as Hten by lia. specialize (Hstop Hten).
    rewrite (Hbefore n Hlt) in Hstop. discriminate Hstop.
  - pose proof (Hloop k Hgt) as E. rewrite (Hafter k (le_n k)) in E.
    discriminate E.
Qed.

(** X25. When [kill_server] returns and the pid file, there at the first
    [k <= 10] checks, is gone from then on, [restart_server] sleeps 0.1
    seconds and then one second per check that found the file, says that
    the old server is shut down, and starts the new one: it ends in
    [twistd.runApp], with the arguments that [start_server] builds. *)
Theorem restart_server_starts_once_the_file_is_gone (os : OS)
    (no_daemon : bool) (k : nat) :
  snd (kill_server os) = returns_None -> k <= 10 ->
  (forall j, j < k -> path_exists os j = true) ->
  (forall j, k <= j -> path_exists os j = false) ->
  exists waiting : list Effect,
    restart_server os no_daemon
    = Some (fst (kill_server os) ++ sleep (1 # 10) :: waiting
            ++ print old_server_shut_down :: start_server no_daemon,
            in_runApp)
    /\ (slept waiting == inject_Z (Z.of_nat k))%Q
    /\ filter is_runApp waiting = []
    /\ length (filter is_waiting_message waiting) = (if k =? 0 then 0 else 1).
Proof.
  intros Hkill Hk Hbefore Hafter. unfold restart_server.
  destruct (kill_server os) as [killing outcome]. cbn [fst snd] in *.
  subst outcome.
  destruct (wait_for_shutdown_ends os 10 0 0 eq_refl)
    as [waiting [n [Hloop [Hle [Hslept [Hall [Hstop [Hmsg Hrun]]]]]]]].
  cbn [Nat.add] in *.
  assert (n = k) as -> by (apply (iterations_until_gone os); assumption).
  rewrite Hloop, (Hafter (S k)) by lia.
  exists waiting. split.
  - rewrite <- app_assoc. reflexivity.
  - split; [exact Hslept|]. split; [exact Hrun|]. rewrite Hmsg.
    destruct (k =? 0); reflexivity.
Qed.

(** X26. When [kill_server] returns and the pid file is there at every
    check, [restart_server] prints the waiting message once, sleeps 10.1
    seconds, gives up with 1, and starts no server. *)
Theorem restart_server_gives_up (os : OS) (no_daemon : bool) :
  snd (kill_server os) = returns_None ->
  (forall j, path_exists os j = true) ->
  exists waiting : list Effect,
    restart_server os no_daemon
    = Some (fst (kill_server os) ++ sleep (1 # 10) :: waiting
            ++ [print unable_to_shut_down],
            returns_1)
    /\ (slept waiting == 10)%Q
    /\ filter is_runApp waiting = []
    /\ length (filter is_waiting_message waiting) = 1.
Proof.
  intros Hkill Hthere. unfold restart_server.
  destruct (kill_server os) as [killing outcome]. cbn [fst snd] in *.
  subst outcome.
  destruct (wait_for_shutdown_ends os 10 0 0 eq_refl)
    as [waiting [n [Hloop [Hle [Hslept [Hall [Hstop [Hmsg Hrun]]]]]]]].
  cbn [Nat.add] in *.
  assert (n = 10) as ->.
  { destruct (Nat.eq_dec n 10) as [E|E]; [exact E|].
    assert (n < 10) as Hlt by lia. specialize (Hstop Hlt).
    rewrite (Hthere n) in Hstop. discriminate Hstop. }
  rewrite Hloop, (Hthere 11). exists waiting. split.
  - rewrite <- app_assoc. reflexivity.
  - split; [exact Hslept|]. split; [exact Hrun|]. exact Hmsg.
Qed.

End ServerFacts.

(* ===================================================================== *)
(** * The further properties at work on the example instances *)
(* ===================================================================== *)

Lemma reachable_asked_early : reachable asked_early.
Proof. apply (reachable_after [whenConnected]). reflexivity. Qed.

Lemma reachable_restarting_7 : reachable restarting_7.
Proof.
  apply (reachable_after
           [whenConnected; start; _connectionMade (proxy_of 7); stop;
            whenConnected; start]).
  reflexivity.
Qed.

Lemma reachable_retrying : reachable retrying.
Proof.
  apply (reachable_after
           [start; _connectionMade (proxy_of 7); _clientDisconnected;
            _reconnect]).
  reflexivity.
Qed.

Lemma happen_all_reachable (events : list Event) :
  forall self self' : ClientService,
    service_reachable self -> happen_all events self = Some self' ->
    service_reachable self'.
Proof.
  induction events as [|e events IH]; intros self self' Hr H; simpl in H.
  - now injection H as <-.
  - destruct (happen e self) as [self1|] eqn:E; [|discriminate H].
    apply (IH self1); [|exact H]. exact (service_event self self1 e Hr E).
Qed.

Lemma service_reachable_after (events : list Event) (self : ClientService) :
  happen_all events (ClientService_init (fun _ => 0%Q) None) = Some self ->
  service_reachable self.
Proof. apply happen_all_reachable. apply service_new. Qed.

Lemma reachable_service_connected_to_7 :
  service_reachable service_connected_to_7.
Proof.
  apply (service_reachable_after
           [calls_whenConnected; calls_startService;
            connect_fires (proxy_of 7)]).
  reflexivity.
Qed.

Lemma reachable_service_after_a_failure :
  service_reachable service_after_a_failure.
Proof.
  apply (service_reachable_after
           [calls_startService; connect_fails (ConnectError 1)]).
  reflexivity.
Qed.


(** [stop] after a failed first attempt raises [AttributeError] and leaves
    the machine stopped, with its completion signal, Deferred 0, waiting. *)
Lemma stop_raises_without_retry_call_witness :
  reachable waiting_without_retry
  /\ exists self' : _ClientMachine,
       doInput stop waiting_without_retry
       = Some (self', raised AttributeError)
       /\ state self' = _stopped
       /\ _stopWaiters self' = [0]
       /\ called 0 self' = false.
Proof.
  split; [exact reachable_waiting_without_retry|].
  destruct (stop_raises_without_retry_call waiting_without_retry
              reachable_waiting_without_retry)
    as [_ [self' [r [H [_ Hraised]]]]].
  exists self'.
  assert (r = raised AttributeError) as ->
    by (injection H as _ <-; reflexivity).
  split; [exact H|].
  destruct (Hraised (ex_intro _ AttributeError eq_refl))
    as [Hs [_ [_ [_ [Hsw Hnot]]]]].
  split; [exact Hs|]. split; [exact Hsw | exact Hnot].
Defined.

Lemma startAndFailTheFirstTime_only_in_init_witness :
  reachable connected_to_7
  /\ (doInput startAndFailTheFirstTime connected_to_7 = None
      <-> state connected_to_7 <> _init).
Proof.
  split; [exact reachable_connected_to_7|].
  exact (startAndFailTheFirstTime_only_in_init connected_to_7
           reachable_connected_to_7).
Defined.


(** The failure of the first attempt raises, in [_connecting]. *)
Lemma raises_by_state_witness :
  reachable (after [start])
  /\ doInput (_connectionFailed (ConnectError 1)) (after [start])
     = Some (waiting_without_retry, raised AttributeError)
  /\ ((exists e, raised AttributeError = raised e)
      <-> (state (after [start]) = _connecting
           \/ state (after [start]) = _disconnecting)
          /\ (exists f, _connectionFailed (ConnectError 1)
                        = _connectionFailed f)
          \/ state (after [start]) = _waiting
             /\ _connectionFailed (ConnectError 1) = stop
             /\ pending_calls (after [start]) = 0).
Proof.
  assert (reachable (after [start])) as Hr
    by (apply (reachable_after [start]); reflexivity).
  assert (doInput (_connectionFailed (ConnectError 1)) (after [start])
          = Some (waiting_without_retry, raised AttributeError)) as H
    by reflexivity.
  split; [exact Hr|]. split; [exact H|].
  exact (proj1 (raises_by_state _ _ _ _ Hr H)).
Defined.

(** Connecting again after the loss of the connection: one failed attempt,
    and the one retry call had the delay for 1, a second and a half. *)
Lemma every_retry_call_has_the_first_delay_witness :
  reachable retrying
  /\ _failedAttempts retrying = 1
  /\ clock_calls retrying = [(steady_policy 1, Called)]
  /\ forall (delay : Q) (status : CallStatus),
       In (delay, status) (clock_calls retrying) ->
       delay = _timeoutForAttempt retrying 1.
Proof.
  split; [exact reachable_retrying|]. split; [reflexivity|].
  split; [reflexivity|].
  exact (proj2 (every_retry_call_has_the_first_delay retrying
                  reachable_retrying)).
Defined.

Lemma failed_attempt_is_not_retried_witness :
  reachable two_waiters
  /\ state two_waiters = _connecting
  /\ exists self' : _ClientMachine,
       doInput (_connectionFailed (ConnectError 1)) two_waiters
       = Some (self', raised AttributeError)
       /\ state self' = _waiting
       /\ clock_calls self' = []
       /\ _awaitingConnected self' = [0; 1]
       /\ callbacks self' = [].
Proof.
  split; [exact reachable_two_waiters|]. split; [reflexivity|].
  destruct (failed_attempt_is_not_retried two_waiters (ConnectError 1)
              reachable_two_waiters eq_refl)
    as [self' [H [Hs [_ [Hck [_ [_ [Haw Hcb]]]]]]]].
  exists self'. auto.
Defined.

Lemma stop_before_start_keeps_waiters_witness :
  reachable asked_early
  /\ state asked_early = _init
  /\ exists self' : _ClientMachine,
       doInput stop asked_early = Some (self', result (ADeferred 1))
       /\ state self' = _stopped
       /\ _awaitingConnected self' = [0].
Proof.
  split; [exact reachable_asked_early|]. split; [reflexivity|].
  destruct (stop_before_start_keeps_waiters asked_early
              reachable_asked_early eq_refl)
    as [self' [H [Hs [Hw _]]]].
  exists self'. auto.
Defined.

Lemma stop_cancels_the_attempt_witness :
  reachable two_waiters
  /\ attempting (state two_waiters) = true
  /\ exists self' : _ClientMachine,
       doInput stop two_waiters = Some (self', result (ADeferred 2))
       /\ state self' = _stopped
       /\ endpoint_connects self' = [Cancelled]
       /\ _awaitingConnected self' = [0; 1]
       /\ _stopWaiters self' = [2]
       /\ callbacks self' = [].
Proof.
  split; [exact reachable_two_waiters|]. split; [reflexivity|].
  destruct (stop_cancels_the_attempt two_waiters reachable_two_waiters
              eq_refl)
    as [self' [a [H [Hs [Ha [Ha' [_ [_ [_ [Haw [Hsw Hcb]]]]]]]]]]].
  exists self'. split; [exact H|]. split; [exact Hs|].
  destruct a as [|x [|y a]]; try discriminate Ha. auto.
Defined.

Lemma stop_cancels_the_retry_call_witness :
  reachable waiting_to_retry
  /\ pending_calls waiting_to_retry = 1
  /\ exists self' : _ClientMachine,
       doInput stop waiting_to_retry = Some (self', result (ADeferred 0))
       /\ state self' = _stopped
       /\ pending_calls self' = 0
       /\ doInput _reconnect self' = None
       /\ fired_once 0 RNone self'.
Proof.
  split; [exact reachable_waiting_to_retry|]. split; [reflexivity|].
  destruct (stop_cancels_the_retry_call waiting_to_retry
              reachable_waiting_to_retry eq_refl)
    as [self' [a [delay [H [_ [Hs [_ [_ [_ [Hp [_ [Hn [_ [_ [Hf _]]
       ]]]]]]]]]]]]].
  exists self'. auto.
Defined.

Lemma lost_connection_is_retried_witness :
  reachable connected_to_7
  /\ state connected_to_7 = _connected
  /\ exists self1 self2 : _ClientMachine,
       doInput _clientDisconnected connected_to_7
       = Some (self1, results [PyNone; PyNone])
       /\ state self1 = _waiting
       /\ doInput _reconnect self1 = Some (self2, results [PyNone])
       /\ state self2 = _connecting.
Proof.
  split; [exact reachable_connected_to_7|]. split; [reflexivity|].
  destruct (lost_connection_is_retried connected_to_7
              reachable_connected_to_7 eq_refl)
    as [self1 [self2 [H1 [Hs1 [_ [_ [_ [_ [_ [H2 [Hs2 _]]]]]]]]]]].
  exists self1, self2. auto.
Defined.

Lemma restart_keeps_the_waiters_witness :
  reachable restarting_7
  /\ state restarting_7 = _restarting
  /\ exists self' : _ClientMachine,
       doInput _clientDisconnected restarting_7
       = Some (self', results [PyNone; PyNone])
       /\ state self' = _connecting
       /\ _awaitingConnected self' = [2].
Proof.
  split; [exact reachable_restarting_7|]. split; [reflexivity|].
  destruct (restart_keeps_the_waiters restarting_7 reachable_restarting_7
              eq_refl)
    as [self' [H [Hs [Hw _]]]].
  exists self'. auto.
Defined.

Lemma deferreds_fire_once_witness :
  reachable connected_to_7
  /\ NoDup (map fst (callbacks connected_to_7))
  /\ forall d value, In (d, value) (callbacks connected_to_7) ->
       d < deferreds connected_to_7
       /\ ~ In d (_awaitingConnected connected_to_7)
       /\ ~ In d (_stopWaiters connected_to_7).
Proof.
  split; [exact reachable_connected_to_7|].
  exact (deferreds_fire_once connected_to_7 reachable_connected_to_7).
Defined.

(** The two waiters of before the connection have fired after it. *)
Lemma no_waiter_is_dropped_witness :
  reachable two_waiters
  /\ doInput (_connectionMade (proxy_of 7)) two_waiters
     = Some (after [whenConnected; whenConnected; start;
                    _connectionMade (proxy_of 7)],
             results [PyNone])
  /\ forall w, In w (_awaitingConnected two_waiters) ->
       In w (_awaitingConnected
               (after [whenConnected; whenConnected; start;
                       _connectionMade (proxy_of 7)]))
       \/ exists value,
            In (w, value)
              (callbacks (after [whenConnected; whenConnected; start;
                                 _connectionMade (proxy_of 7)])).
Proof.
  split; [exact reachable_two_waiters|]. split; [reflexivity|].
  exact (proj1 (no_waiter_is_dropped two_waiters _
                  (_connectionMade (proxy_of 7)) _ reachable_two_waiters
                  eq_refl)).
Defined.

Lemma service_flag_matches_state_witness :
  service_reachable service_connected_to_7
  /\ flag_matches_state service_connected_to_7.
Proof.
  split; [exact reachable_service_connected_to_7|].
  exact (service_flag_matches_state service_connected_to_7
           reachable_service_connected_to_7).
Defined.

(** [startService], a failed connection attempt, [stopService]: the call
    raises [AttributeError]. *)
Lemma stopService_raises_without_retry_call_witness :
  service_reachable service_after_a_failure
  /\ exists self' : ClientService,
       stopService service_after_a_failure
       = Some (self', raised AttributeError)
       /\ running self' = false.
Proof.
  split; [exact reachable_service_after_a_failure|].
  destruct (stopService_raises_without_retry_call service_after_a_failure
              reachable_service_after_a_failure)
    as [_ [_ [self' [r [H [Hflag _]]]]]].
  exists self'.
  assert (r = raised AttributeError) as ->
    by (injection H as _ <-; reflexivity).
  split; [exact H | exact Hflag].
Defined.


Lemma restart_server_starts_once_the_file_is_gone_witness :
  snd (Server.kill_server slow_shutdown) = Server.returns_None
  /\ 3 <= 10
  /\ (forall j, j < 3 -> Server.path_exists slow_shutdown j = true)
  /\ (forall j, 3 <= j -> Server.path_exists slow_shutdown j = false)
  /\ exists waiting : list Server.Effect,
       Server.restart_server slow_shutdown true
       = Some (fst (Server.kill_server slow_shutdown)
               ++ Server.sleep (1 # 10) :: waiting
               ++ Server.print Server.old_server_shut_down
                  :: Server.start_server true,
               Server.in_runApp)
       /\ (Server.slept waiting == 3)%Q.
Proof.
  assert (forall j, j < 3 -> Server.path_exists slow_shutdown j = true)
    as Hbefore by (intros j Hj; apply Nat.ltb_lt; exact Hj).
  assert (forall j, 3 <= j -> Server.path_exists slow_shutdown j = false)
    as Hafter by (intros j Hj; apply Nat.ltb_ge; exact Hj).
  assert (3 <= 10) as Hk by lia.
  split; [reflexivity|]. split; [exact Hk|]. split; [exact Hbefore|].
  split; [exact Hafter|].
  destruct (restart_server_starts_once_the_file_is_gone slow_shutdown true
              3 eq_refl Hk Hbefore Hafter)
    as [waiting [H [Hslept _]]].
  exists waiting. split; [exact H | exact Hslept].
Defined.

Lemma restart_server_gives_up_witness :
  snd (Server.kill_server no_shutdown) = Server.returns_None
  /\ (forall j, Server.path_exists no_shutdown j = true)
  /\ exists waiting : list Server.Effect,
       Server.restart_server no_shutdown false
       = Some (fst (Server.kill_server no_shutdown)
               ++ Server.sleep (1 # 10) :: waiting
               ++ [Server.print Server.unable_to_shut_down],
               Server.returns_1)
       /\ (Server.slept waiting == 10)%Q.
Proof.
  split; [reflexivity|]. split; [reflexivity|].
  destruct (restart_server_gives_up no_shutdown false eq_refl
              (fun _ => eq_refl))
    as [waiting [H [Hslept _]]].
  exists waiting. split; [exact H | exact Hslept].
Defined.
